(** * audiobook_scraper: a shallow embedding and its verified properties

    The development follows [src/audiobook_scraper.py]: the helpers of
    Python's [str] and [re] that the script relies on, the part of the
    BeautifulSoup tree that it queries, the three classes
    [AudiobookScraper], [FileManager] and [AudiobookProcessor], and [main].
    Network, parser and tag library are collaborators of the script; they
    enter as the operations of the class [Collaborators]. *)

From Stdlib Require Import ZArith List.
From Stdlib.Strings Require Import Ascii String Byte.
From stdpp Require Import base option list strings gmap pretty countable.

Open Scope string_scope.
Open Scope Z_scope.

(** ** Python strings

    A [str] is a [string]; the character classes are those of Python 3 for
    code points below 128, the range the model covers. *)
Module Py.

Definition code (c : ascii) : N := N_of_ascii c.

(** [str.isspace] and the class [\s]: TAB..CR, FS..US and the space. *)
Definition isspace (c : ascii) : bool :=
  ((9 <=? code c) && (code c <=? 13) || (28 <=? code c) && (code c <=? 32))%N.

(** The class [\w]: digits, letters and the underscore. *)
Definition isword (c : ascii) : bool :=
  ((48 <=? code c) && (code c <=? 57) || (65 <=? code c) && (code c <=? 90)
   || (code c =? 95) || (97 <=? code c) && (code c <=? 122))%N.

Fixpoint lstrip (s : string) : string :=
  match s with
  | String c r => if isspace c then lstrip r else s
  | EmptyString => EmptyString
  end.

Fixpoint rstrip (s : string) : string :=
  match s with
  | String c r =>
      match rstrip r with
      | EmptyString => if isspace c then EmptyString else String c EmptyString
      | r' => String c r'
      end
  | EmptyString => EmptyString
  end.

(** [s.strip()] *)
Definition strip (s : string) : string := rstrip (lstrip s).

(** [s.startswith(p)], returning what follows the prefix. *)
Fixpoint strip_prefix (p s : string) : option string :=
  match p, s with
  | EmptyString, _ => Some s
  | String a p', String b s' => if Ascii.eqb a b then strip_prefix p' s' else None
  | String _ _, EmptyString => None
  end.

(** Truthiness of an [Optional[str]]: [None] and [''] are falsy. *)
Definition truthy (o : option string) : bool :=
  match o with
  | Some (String _ _) => true
  | _ => false
  end.

(** The text an f-string puts for an [Optional[str]]. *)
Definition fmt (o : option string) : string :=
  match o with
  | Some s => s
  | None => "None"
  end.

(** [sep.join(l)] *)
Fixpoint join (sep : string) (l : list string) : string :=
  match l with
  | [] => EmptyString
  | [s] => s
  | s :: l' => s +:+ sep +:+ join sep l'
  end.

(** The matches of [\S+] in [s], from left to right: [cur] is the token
    being read, if any. *)
Fixpoint tokens_go (cur : option string) (s : string) : list string :=
  match s with
  | EmptyString => match cur with Some t => [t] | None => [] end
  | String c r =>
      if isspace c
      then match cur with Some t => t :: tokens_go None r | None => tokens_go None r end
      else tokens_go (Some (default EmptyString cur +:+ String c EmptyString)) r
  end.

Definition tokens (s : string) : list string := tokens_go None s.

(** [template.format(data_id=v)] for a template whose only replacement
    field is [{data_id}]; [skip] counts the characters of a field that are
    still to be passed over. *)
Fixpoint format_go (skip : nat) (template v : string) : string :=
  match template with
  | EmptyString => EmptyString
  | String c r =>
      match skip with
      | S k => format_go k r v
      | O =>
          match strip_prefix "{data_id}" template with
          | Some _ => v +:+ format_go 8%nat r v
          | None => String c (format_go 0%nat r v)
          end
      end
  end.

Definition format_data_id (template v : string) : string := format_go 0%nat template v.

End Py.

(** ** The two regular expressions of the script *)
Module Re.
Import Py.

Definition isword_at (o : option ascii) : bool :=
  match o with
  | Some c => isword c
  | None => false
  end.

Definition head (s : string) : option ascii :=
  match s with
  | String c _ => Some c
  | EmptyString => None
  end.

(** [\b]: exactly one of the two neighbouring positions holds a word
    character (the ends of the string count as non-word). *)
Definition boundary (before after : option ascii) : bool :=
  xorb (isword_at before) (isword_at after).

(** [\baudiobook\b] matched at the start of [s], with [prev] the character
    before it. *)
Definition audiobook_at (prev : option ascii) (s : string) : bool :=
  boundary prev (head s) &&
  match strip_prefix "audiobook" s with
  | Some rest => boundary (Some "k"%char) (head rest)
  | None => false
  end.

Fixpoint audiobook_from (prev : option ascii) (s : string) : bool :=
  audiobook_at prev s ||
  match s with
  | String c r => audiobook_from (Some c) r
  | EmptyString => false
  end.

(** [re.compile(r'\baudiobook\b').search(s)], as a truth value. *)
Definition audiobook_search (s : string) : bool := audiobook_from None s.

(** [\s*]: greedy; what follows it in the pattern is the letter [u], which
    no shorter run of spaces could expose. *)
Fixpoint skip_spaces (s : string) : string :=
  match s with
  | String c r => if isspace c then skip_spaces r else s
  | EmptyString => EmptyString
  end.

(** [[^)]*]: the longest run without a closing parenthesis, and the rest. *)
Fixpoint span_no_rparen (s : string) : string * string :=
  match s with
  | String c r =>
      if Ascii.eqb c ")"%char then (EmptyString, s)
      else let '(u, rest) := span_no_rparen r in (String c u, rest)
  | EmptyString => (EmptyString, EmptyString)
  end.

(** [background-image:\s*url\(([^)]+)\)] matched at the start of [s]:
    group 1. The group is greedy and must be followed by [)], so it is the
    whole run up to the first closing parenthesis. *)
Definition background_image_at (s : string) : option string :=
  rest ← strip_prefix "background-image:" s;
  rest ← strip_prefix "url(" (skip_spaces rest);
  match span_no_rparen rest with
  | (String c u, String _ _) => Some (String c u)
  | _ => None
  end.

(** [re.search(r'background-image:\s*url\(([^)]+)\)', s)]: group 1 of the
    leftmost match, [None] without a match. *)
Fixpoint background_image_search (s : string) : option string :=
  match background_image_at s with
  | Some u => Some u
  | None =>
      match s with
      | String _ r => background_image_search r
      | EmptyString => None
      end
  end.

End Re.

(** ** The BeautifulSoup tree *)
Module Bs4.
Import Py.

(** A node is a string or a tag with its name, its attribute dictionary
    and its children. The value of [class] is kept as written; it is split
    into its tokens where the library does so. *)
Inductive Node : Type :=
| NavigableString (s : string)
| Tag (name : string) (attrs : gmap string string) (contents : list Node).

Definition attrs_of (n : Node) : gmap string string :=
  match n with
  | Tag _ a _ => a
  | NavigableString _ => ∅
  end.

(** [tag.get(key)] *)
Definition get (n : Node) (key : string) : option string := attrs_of n !! key.

(** [tag.descendants]: every node below [n], in document order. *)
Fixpoint descendants (n : Node) : list Node :=
  match n with
  | NavigableString _ => []
  | Tag _ _ cs => flat_map (fun c => c :: descendants c) cs
  end.

(** The strings below [n], in document order. *)
Fixpoint all_strings (n : Node) : list string :=
  match n with
  | NavigableString s => [s]
  | Tag _ _ cs => flat_map all_strings cs
  end.

Definition nonempty (s : string) : bool :=
  match s with
  | String _ _ => true
  | EmptyString => false
  end.

(** [tag.get_text(strip=True)]: the stripped strings that are not empty,
    joined without a separator. *)
Definition get_text_strip (n : Node) : string :=
  join "" (List.filter nonempty (map strip (all_strings n))).

(** How a search value is matched against the multi-valued [class]: some
    token matches, or the tokens joined by a space do. *)
Definition class_matches (test : string -> bool) (n : Node) : bool :=
  match get n "class" with
  | Some v => existsb test (tokens v) || test (join " " (tokens v))
  | None => false
  end.

Definition has_name (name : string) (n : Node) : bool :=
  match n with
  | Tag nm _ _ => String.eqb nm name
  | NavigableString _ => false
  end.

(** [tag.find_all(name, class_=...)] with a string or a compiled pattern. *)
Definition find_all_class (name : string) (test : string -> bool) (n : Node) : list Node :=
  List.filter (fun d => has_name name d && class_matches test d) (descendants n).

(** [tag.find(name, class_=s)] *)
Definition find_class (name s : string) (n : Node) : option Node :=
  List.head (find_all_class name (String.eqb s) n).

(** A single-valued attribute is compared as a whole. *)
Definition attr_is (key value : string) (n : Node) : bool :=
  match get n key with
  | Some v => String.eqb v value
  | None => false
  end.

Definition matches_attr (name key value : string) (n : Node) : bool :=
  has_name name n && attr_is key value n.

(** [tag.find(name, {key: value})]: the first match in document order. *)
Definition find_attr (name key value : string) (n : Node) : option Node :=
  List.head (List.filter (matches_attr name key value) (descendants n)).

End Bs4.

(** ** The world the script runs in *)

Abbreviation bytes := (list byte).

(** The exceptions that occur, each with the text [str(e)] gives. The
    classes of [requests.exceptions] are all [RequestException]s. *)
Inductive exn : Type :=
| RequestException (msg : string)
| ValueError (msg : string)
| OSError (msg : string)
| ParserRejectedMarkup (msg : string)
| MutagenError (msg : string).

Definition str (e : exn) : string :=
  match e with
  | RequestException m | ValueError m | OSError m
  | ParserRejectedMarkup m | MutagenError m => m
  end.

Definition is_RequestException (e : exn) : bool :=
  match e with
  | RequestException _ => true
  | _ => false
  end.

Definition is_RequestException_or_ValueError (e : exn) : bool :=
  match e with
  | RequestException _ | ValueError _ => true
  | _ => false
  end.

Inductive level : Type := INFO | WARNING | ERROR.

(** [files] and [dirs] are the file system: regular files with their
    contents, and the directories made so far. [log] holds the records
    handed to [logging], oldest first. Three fields are ghost state that
    the script does not see: [clock] counts the requests sent, [tagged]
    the calls of [set_mp3_metadata], and [peak] is the largest number of
    body bytes held in one buffer. *)
Record World : Type := mkWorld {
  files : gmap string bytes;
  dirs : gset string;
  log : list (level * string);
  clock : nat;
  tagged : nat;
  peak : nat
}.

Definition with_files (f : gmap string bytes) (w : World) : World :=
  mkWorld f (dirs w) (log w) (clock w) (tagged w) (peak w).
Definition with_dirs (d : gset string) (w : World) : World :=
  mkWorld (files w) d (log w) (clock w) (tagged w) (peak w).
Definition with_log (l : list (level * string)) (w : World) : World :=
  mkWorld (files w) (dirs w) l (clock w) (tagged w) (peak w).
Definition with_clock (c : nat) (w : World) : World :=
  mkWorld (files w) (dirs w) (log w) c (tagged w) (peak w).
Definition with_tagged (t : nat) (w : World) : World :=
  mkWorld (files w) (dirs w) (log w) (clock w) t (peak w).
Definition with_peak (p : nat) (w : World) : World :=
  mkWorld (files w) (dirs w) (log w) (clock w) (tagged w) p.

(** A computation either raises or returns, and leaves a world behind in
    both cases. *)
Definition M (A : Type) : Type := World -> (exn + A) * World.

#[global] Instance M_ret : MRet M := fun A x w => (inr x, w).

#[global] Instance M_bind : MBind M := fun A B f m w =>
  match m w with
  | (inr x, w') => f x w'
  | (inl e, w') => (inl e, w')
  end.

Definition raise {A : Type} (e : exn) : M A := fun w => (inl e, w).

(** [try: m except <classes selected by sel> as e: h e] *)
Definition try_except {A : Type} (m : M A) (sel : exn -> bool) (h : exn -> M A) : M A :=
  fun w =>
    match m w with
    | (inr x, w') => (inr x, w')
    | (inl e, w') => if sel e then h e w' else (inl e, w')
    end.

Definition logging (l : level) (msg : string) : M unit :=
  fun w => (inr tt, with_log (log w ++ [(l, msg)])%list w).

Definition result {A : Type} (m : M A) (w : World) : exn + A := fst (m w).
Definition after {A : Type} (m : M A) (w : World) : World := snd (m w).

(** *** The response of a request

    [content] is what [response.content] gives and [raw] is the body that
    [iter_content] hands out piece by piece; a transport that behaves has
    them equal, which the model does not assume. *)
Record Response : Type := mkResponse {
  status_code : Z;
  content : bytes;
  raw : bytes
}.

Inductive reply : Type :=
| Refused (msg : string)
| Answer (r : Response).

(** *** ID3 tags *)
Inductive Frame : Type :=
| TIT2 (encoding : Z) (text : string)
| TALB (encoding : Z) (text : string)
| APIC (encoding : Z) (mime : string) (type : Z) (desc : string) (data : bytes)
| OtherFrame (key : string) (payload : bytes).

Definition HashKey (f : Frame) : string :=
  match f with
  | TIT2 _ _ => "TIT2"
  | TALB _ _ => "TALB"
  | APIC _ _ _ desc _ => "APIC:" +:+ desc
  | OtherFrame k _ => k
  end.

(** A tag is a dictionary of frames under their hash keys; [ID3.add]
    stores the frame under its key, replacing what was there. *)
Abbreviation ID3 := (gmap string Frame).

Definition add (f : Frame) (audio : ID3) : ID3 := <[HashKey f := f]> audio.

Inductive loaded : Type :=
| Header (audio : ID3)
| NoHeader
| Unreadable (msg : string).

(** *** The collaborators

    [http_get n url headers] is what the network answers to the request
    number [n]; [html_parser] is [BeautifulSoup(_, 'html.parser')];
    [ID3_load] reads the tag of a file's bytes and [ID3_save] writes a tag
    into them. *)
Class Collaborators : Type := {
  http_get : nat -> string -> gmap string string -> reply;
  html_parser : bytes -> exn + Bs4.Node;
  ID3_load : bytes -> loaded;
  ID3_save : ID3 -> bytes -> bytes
}.

(** ** requests *)
Module Requests.
Section Requests.
Context `{Collaborators}.

(** [requests.get(url, headers=headers, ...)]. A [url] of [None] is
    rejected while the request is prepared, before anything is sent. *)
Definition get (url : option string) (headers : gmap string string) : M Response :=
  fun w =>
    match url with
    | None =>
        (inl (RequestException "Invalid URL 'None': No scheme supplied."), w)
    | Some u =>
        match http_get (clock w) u headers with
        | Refused msg => (inl (RequestException msg), with_clock (S (clock w)) w)
        | Answer r => (inr r, with_clock (S (clock w)) w)
        end
    end.

(** The status codes that [raise_for_status] turns into an [HTTPError]. *)
Definition is_error (r : Response) : bool :=
  (400 <=? status_code r) && (status_code r <? 600).

(** [response.raise_for_status()] *)
Definition raise_for_status (r : Response) : M unit :=
  if is_error r
  then raise (RequestException ("HTTPError: " +:+ pretty (status_code r)))
  else mret tt.

Definition hold (n : nat) : M unit :=
  fun w => (inr tt, with_peak (Nat.max (peak w) n) w).

(** [response.content]: the whole body, in one buffer. *)
Definition get_content (r : Response) : M bytes :=
  hold (length (content r));; mret (content r).

(** The pieces of [n] bytes of [b]; every piece takes at least one byte,
    so that a [fuel] of the length of [b] is enough for all of them. *)
Fixpoint slices (fuel n : nat) (b : bytes) : list bytes :=
  match fuel, b with
  | S k, _ :: _ => take n b :: slices k n (drop n b)
  | _, _ => []
  end.

(** [response.iter_content(chunk_size=n)]: the body in pieces of [n]
    bytes, the last one possibly shorter; in one piece when [n] is not
    positive. *)
Definition iter_content (n : Z) (r : Response) : list bytes :=
  slices (length (raw r)) (if n <=? 0 then length (raw r) else Z.to_nat n) (raw r).

End Requests.
End Requests.

(** ** The file system *)
Module Fs.

Definition path_join (a b : string) : string := a +:+ "/" +:+ b.

Definition present (p : string) (w : World) : bool :=
  bool_decide (is_Some (files w !! p)) || bool_decide (p ∈ dirs w).

(** [path.exists()] *)
Definition exists_ (p : string) : M bool :=
  fun w => (inr (present p w), w).

(** [path.mkdir(parents=True, exist_ok=True)]; of the directories made
    only [p] itself is recorded. *)
Definition mkdir (p : string) : M unit :=
  fun w =>
    match files w !! p with
    | Some _ => (inl (OSError ("File exists: " +:+ p)), w)
    | None => (inr tt, with_dirs ({[p]} ∪ dirs w) w)
    end.

(** [path.open('wb')]: the file is made, or emptied. *)
Definition open_wb (p : string) : M unit :=
  fun w =>
    if bool_decide (p ∈ dirs w)
    then (inl (OSError ("Is a directory: " +:+ p)), w)
    else (inr tt, with_files (<[p := []]> (files w)) w).

(** [file.write(chunk)] on the file opened at [p]. *)
Definition write (p : string) (chunk : bytes) : M unit :=
  fun w =>
    (inr tt,
     with_peak (Nat.max (peak w) (length chunk))
       (with_files (<[p := (default [] (files w !! p) ++ chunk)%list]> (files w)) w)).

(** [for chunk in chunks: file.write(chunk)] *)
Fixpoint write_all (p : string) (chunks : list bytes) : M unit :=
  match chunks with
  | [] => mret tt
  | chunk :: rest => write p chunk;; write_all p rest
  end.

(** The file at [p] gets the contents [b]. *)
Definition put (p : string) (b : bytes) : M unit :=
  fun w => (inr tt, with_files (<[p := b]> (files w)) w).

(** [path.open('rb').read()] *)
Definition read (p : string) : M bytes :=
  fun w =>
    match files w !! p with
    | Some b => (inr b, w)
    | None => (inl (OSError ("No such file or directory: " +:+ p)), w)
    end.

(** [path.stat().st_size] *)
Definition st_size (p : string) : M Z :=
  b ← read p; mret (Z.of_nat (length b)).

End Fs.

(** ** class AudiobookScraper *)
Module AudiobookScraper.
Import Py Bs4.

Record t : Type := mk {
  url : string;
  headers : gmap string string;
  audio_fetch_template : string
}.

(** The dictionary [extract_audiobook_data] appends. *)
Record Audiobook : Type := mkAudiobook {
  title : string;
  cover_link : option string;
  audio_link : option string
}.

(** The string of an [Optional[str]] that was tested to be truthy. *)
Definition the (o : option string) : string := default EmptyString o.

Section AudiobookScraper.
Context `{Collaborators}.

Definition __init__ (url : string) (headers : gmap string string)
    (audio_fetch_template : string) : M t :=
  logging INFO ("AudiobookScraper initialized with URL: " +:+ url);;
  mret (mk url headers audio_fetch_template).

Definition parse (b : bytes) : M Node :=
  match html_parser b with
  | inl e => raise e
  | inr soup => mret soup
  end.

Definition fetch_page (self : t) : M Node :=
  logging INFO ("Fetching page content from URL: " +:+ url self);;
  try_except
    (response ← Requests.get (Some (url self)) (headers self);
     Requests.raise_for_status response;;
     logging INFO "Page content fetched successfully";;
     body ← Requests.get_content response;
     parse body)
    is_RequestException
    (fun e => logging ERROR ("Failed to fetch page content: " +:+ str e);; raise e).

Definition detail_url (self : t) (data_id : string) : string :=
  format_data_id (audio_fetch_template self) data_id.

Definition get_audio_src (self : t) (data_id : string) : M (option string) :=
  let url := detail_url self data_id in
  try_except
    (logging INFO ("Fetching audio source from URL: " +:+ url);;
     response ← Requests.get (Some url) (headers self);
     Requests.raise_for_status response;;
     body ← Requests.get_content response;
     soup ← parse body;
     let source_tag := find_attr "source" "type" "audio/mpeg" soup in
     mret (match source_tag with
           | Some tag => get tag "src"
           | None => None
           end))
    is_RequestException
    (fun e => logging ERROR ("Failed to fetch audio source: " +:+ str e);; mret None).

Definition extract_image_url (self : t) (cover_div : option Node) : M (option string) :=
  match cover_div with
  | Some div =>
      match get div "style" with
      | Some style => mret (Re.background_image_search style)
      | None =>
          logging WARNING "Cover attribute not found or URL not in style attribute.";;
          mret None
      end
  | None =>
      logging WARNING "Cover attribute not found or URL not in style attribute.";;
      mret None
  end.

(** The elements the loop of [extract_audiobook_data] runs over. *)
Definition candidates (soup : Node) : list Node :=
  find_all_class "div" Re.audiobook_search soup.

Definition data_id_of (div : Node) : option string := get div "data-id".

Definition title_of (div : Node) : option string :=
  get_text_strip <$> find_class "div" "title" div.

Definition cover_div_of (div : Node) : option Node :=
  find_class "div" "cover lazyBackgroundNone" div.

(** The body of the loop, on the list built so far. *)
Definition extract_one (self : t) (div : Node) (audiobooks : list Audiobook)
    : M (list Audiobook) :=
  let data_id := data_id_of div in
  let title := title_of div in
  cover_url ← extract_image_url self (cover_div_of div);
  audio_link ← (if truthy data_id then get_audio_src self (the data_id) else mret None);
  if negb (truthy title) || negb (truthy data_id)
  then
    logging WARNING ("Skipping audiobook with missing title or data-id: " +:+ fmt data_id);;
    mret audiobooks
  else mret (audiobooks ++ [mkAudiobook (the title) cover_url audio_link])%list.

Fixpoint extract_loop (self : t) (divs : list Node) (audiobooks : list Audiobook)
    : M (list Audiobook) :=
  match divs with
  | [] => mret audiobooks
  | div :: rest =>
      audiobooks ← extract_one self div audiobooks;
      extract_loop self rest audiobooks
  end.

Definition extract_audiobook_data (self : t) (soup : Node) : M (list Audiobook) :=
  logging INFO "Extracting audiobook data";;
  audiobooks ← extract_loop self (candidates soup) [];
  logging INFO ("Extracted " +:+ pretty (length audiobooks) +:+ " audiobooks");;
  mret audiobooks.

Definition run (self : t) : M (list Audiobook) :=
  try_except
    (soup ← fetch_page self;
     extract_audiobook_data self soup)
    (fun _ => true)
    (fun e =>
       logging ERROR ("An error occurred during the scraping process: " +:+ str e);;
       mret []).

End AudiobookScraper.
End AudiobookScraper.

(** ** class FileManager *)
Module FileManager.
Section FileManager.
Context `{Collaborators}.

Definition download_file (url : option string) (file_path : string) (chunk_size : Z)
    : M unit :=
  logging INFO ("Downloading file from URL: " +:+ Py.fmt url +:+ " to path: " +:+ file_path);;
  try_except
    (response ← Requests.get url ∅;
     Requests.raise_for_status response;;
     Fs.open_wb file_path;;
     Fs.write_all file_path (Requests.iter_content chunk_size response);;
     logging INFO ("File downloaded successfully to: " +:+ file_path))
    is_RequestException
    (fun e => logging ERROR ("Failed to download file: " +:+ str e);; raise e).

Definition mp3_headers : gmap string string :=
  {[ "User-Agent" := "Mozilla/5.0 (Windows NT 10.0; Win64; x64) AppleWebKit/537.36 (KHTML, like Gecko) Chrome/90.0.4430.85 Safari/537.36";
     "Accept" := "audio/mpeg, audio/*; q=0.9" ]}.

(** The body of the [try] in [download_mp3]; it ends with the [return]. *)
Definition attempt_mp3 (url : option string) (destination_path : string) (attempt : Z)
    : M unit :=
  logging INFO ("Attempting to download MP3 file from URL: " +:+ Py.fmt url
                +:+ " (Attempt " +:+ pretty (attempt + 1) +:+ ")");;
  response ← Requests.get url mp3_headers;
  Requests.raise_for_status response;;
  body ← Requests.get_content response;
  match body with
  | [] => raise (ValueError "No content received from the URL.")
  | _ :: _ =>
      Fs.open_wb destination_path;;
      Fs.write_all destination_path (Requests.iter_content 8192 response);;
      size ← Fs.st_size destination_path;
      if size =? 0
      then raise (ValueError "Downloaded file is empty.")
      else logging INFO ("MP3 file successfully downloaded to: " +:+ destination_path)
  end.

(** The [while] loop of [download_mp3], with [left] iterations to go:
    [left] is [max_retries - attempt], so that [attempt < max_retries]
    holds exactly when [left] is a successor. *)
Fixpoint download_mp3_loop (left : nat) (url : option string) (destination_path : string)
    (max_retries attempt : Z) : M unit :=
  match left with
  | S left' =>
      try_except
        (attempt_mp3 url destination_path attempt)
        is_RequestException_or_ValueError
        (fun e =>
           logging WARNING ("Attempt " +:+ pretty (attempt + 1) +:+ " failed: " +:+ str e);;
           download_mp3_loop left' url destination_path max_retries (attempt + 1))
  | O =>
      logging ERROR ("Failed to download the MP3 file after " +:+ pretty max_retries
                     +:+ " attempts.");;
      raise (ValueError "Max retries exceeded")
  end.

Definition download_mp3 (url : option string) (destination_path : string) (max_retries : Z)
    : M unit :=
  download_mp3_loop (Z.to_nat max_retries) url destination_path max_retries 0.

(** [ID3(mp3_path)], with the [except ID3NoHeaderError] around it. *)
Definition load_tags (mp3_path : string) : M ID3 :=
  b ← Fs.read mp3_path;
  match ID3_load b with
  | Header audio => mret audio
  | NoHeader => mret ∅
  | Unreadable msg => raise (MutagenError msg)
  end.

(** [audio.save(mp3_path)] *)
Definition save_tags (audio : ID3) (mp3_path : string) : M unit :=
  b ← Fs.read mp3_path;
  Fs.put mp3_path (ID3_save audio b).

Definition called : M unit :=
  fun w => (inr tt, with_tagged (S (tagged w)) w).

Definition set_mp3_metadata (mp3_path audio_name album_name cover_path : string) : M unit :=
  called;;
  audio ← load_tags mp3_path;
  let audio := add (TIT2 3 audio_name) audio in
  let audio := add (TALB 3 album_name) audio in
  data ← Fs.read cover_path;
  let audio := add (APIC 3 "image/jpeg" 3 "Cover" data) audio in
  save_tags audio mp3_path;;
  logging INFO ("Metadata set for MP3 file: " +:+ mp3_path).

End FileManager.
End FileManager.

(** ** class AudiobookProcessor *)
Module AudiobookProcessor.

Record t : Type := mk {
  audio_name : string;
  cover_link : option string;
  audio_link : option string;
  album_name : string;
  folder_path : string;
  cover_path : string;
  mp3_path : string
}.

Definition folder_of (destination audio_name : string) : string :=
  Fs.path_join destination audio_name.
Definition cover_of (destination audio_name : string) : string :=
  Fs.path_join (folder_of destination audio_name) "cover.jpg".
Definition mp3_of (destination audio_name : string) : string :=
  Fs.path_join (folder_of destination audio_name) (audio_name +:+ ".mp3").

(** The object [__init__] fills in. *)
Definition make (audio_name : string) (cover_link audio_link : option string)
    (album_name destination : string) : t :=
  mk audio_name cover_link audio_link album_name
     (folder_of destination audio_name)
     (cover_of destination audio_name)
     (mp3_of destination audio_name).

Section AudiobookProcessor.
Context `{Collaborators}.

Definition __init__ (audio_name : string) (cover_link audio_link : option string)
    (album_name destination : string) : M t :=
  logging INFO ("AudiobookProcessor initialized for: " +:+ audio_name);;
  mret (make audio_name cover_link audio_link album_name destination).

Definition process (self : t) : M unit :=
  Fs.mkdir (folder_path self);;
  cover_exists ← Fs.exists_ (cover_path self);
  (if negb cover_exists
   then
     logging INFO ("Downloading cover image from " +:+ Py.fmt (cover_link self) +:+ "...");;
     FileManager.download_file (cover_link self) (cover_path self) 8192
   else mret tt);;
  mp3_exists ← Fs.exists_ (mp3_path self);
  (if negb mp3_exists
   then
     logging INFO ("Downloading MP3 file from " +:+ Py.fmt (audio_link self) +:+ "...");;
     FileManager.download_mp3 (audio_link self) (mp3_path self) 3
   else mret tt);;
  logging INFO ("Setting metadata for " +:+ mp3_path self +:+ "...");;
  FileManager.set_mp3_metadata (mp3_path self) (audio_name self) (album_name self)
    (cover_path self);;
  logging INFO ("Process completed for '" +:+ audio_name self +:+ "'.").

End AudiobookProcessor.
End AudiobookProcessor.

(** ** The driver *)
Section Driver.
Context `{Collaborators}.

Definition default_headers : gmap string string :=
  {[ "accept" := "text/html,application/xhtml+xml,application/xml;q=0.9,image/avif,image/webp,image/apng,*/*;q=0.8";
     "accept-language" := "pl-PL,pl;q=0.8";
     "user-agent" := "Mozilla/5.0 (Windows NT 10.0; Win64; x64) AppleWebKit/537.36 (KHTML, like Gecko) Chrome/127.0.0.0 Safari/537.36" ]}.

(** One turn of the [for] loop of [main]. *)
Definition process_item (album_name destination : string)
    (audiobook : AudiobookScraper.Audiobook) : M unit :=
  processor ← AudiobookProcessor.__init__
                (AudiobookScraper.title audiobook)
                (AudiobookScraper.cover_link audiobook)
                (AudiobookScraper.audio_link audiobook)
                album_name destination;
  AudiobookProcessor.process processor.

Fixpoint process_all (album_name destination : string)
    (audiobooks : list AudiobookScraper.Audiobook) : M unit :=
  match audiobooks with
  | [] => mret tt
  | audiobook :: rest =>
      process_item album_name destination audiobook;;
      process_all album_name destination rest
  end.

Definition main (destination : string) : M unit :=
  let album_name := "Kubus Storytel" in
  let url := "https://kubus.pl/audiobooki/" in
  let audio_fetch_template := "https://kubus.pl/?p={data_id}" in
  let headers := default_headers in
  scraper ← AudiobookScraper.__init__ url headers audio_fetch_template;
  audiobooks ← AudiobookScraper.run scraper;
  process_all album_name destination audiobooks.

End Driver.

(** ** Vocabulary of the statements *)

(** The longest of a list of chunks. *)
Definition max_len (chunks : list bytes) : nat :=
  foldr (fun c m => Nat.max (length c) m) 0%nat chunks.

(** The answers that make an attempt of [download_mp3] fail: a refused
    request, an error status, an empty [content], or a body of which
    nothing reaches the file. *)
Definition attempt_fails (rp : reply) : bool :=
  match rp with
  | Refused _ => true
  | Answer r =>
      Requests.is_error r
      || match content r with [] => true | _ => false end
      || match raw r with [] => true | _ => false end
  end.

(** From [w] to [w'] no directory was made, no tagging was counted, and
    no file but the one at [p] was written. *)
Definition only_wrote (p : string) (w w' : World) : Prop :=
  dirs w' = dirs w /\ tagged w' = tagged w /\
  forall q, q <> p -> files w' !! q = files w !! q.

(** The tag [set_mp3_metadata] saves, from the tag [audio] it loaded. *)
Definition tags_for (audio_name album_name : string) (data : bytes) (audio : ID3) : ID3 :=
  add (APIC 3 "image/jpeg" 3 "Cover" data)
    (add (TALB 3 album_name) (add (TIT2 3 audio_name) audio)).

(** The first two statements of [main]: the records of the catalog. *)
Definition scrape `{Collaborators} : M (list AudiobookScraper.Audiobook) :=
  scraper ← AudiobookScraper.__init__ "https://kubus.pl/audiobooki/" default_headers
              "https://kubus.pl/?p={data_id}";
  AudiobookScraper.run scraper.

(** A candidate that [extract_audiobook_data] keeps: it has a title and a
    [data-id], neither empty. *)
Definition well_formed (div : Bs4.Node) : bool :=
  Py.truthy (AudiobookScraper.title_of div) && Py.truthy (AudiobookScraper.data_id_of div).

(** The cover URL that [extract_image_url] finds for a candidate. *)
Definition cover_url_of (div : Bs4.Node) : option string :=
  cover ← AudiobookScraper.cover_div_of div;
  style ← Bs4.get cover "style";
  Re.background_image_search style.

(** The warnings about dropped candidates in a log, counted. *)
Definition is_skip_warning (entry : level * string) : bool :=
  match entry with
  | (WARNING, msg) =>
      match Py.strip_prefix "Skipping audiobook with missing title or data-id: " msg with
      | Some _ => true
      | None => false
      end
  | _ => false
  end.

Definition skipped (l : list (level * string)) : nat :=
  length (List.filter is_skip_warning l).

(** What a record owes to its candidate alone, and not to the network. *)
Definition fixed_part (r : AudiobookScraper.Audiobook) : string * option string :=
  (AudiobookScraper.title r, AudiobookScraper.cover_link r).

Definition fixed_part_of (div : Bs4.Node) : string * option string :=
  (AudiobookScraper.the (AudiobookScraper.title_of div), cover_url_of div).

(** The strings that [background-image:\s*url\(([^)]+)\)] matches
    somewhere, with [url] for its group. *)
Fixpoint all_space (s : string) : bool :=
  match s with
  | String c r => Py.isspace c && all_space r
  | EmptyString => true
  end.

Fixpoint no_rparen (s : string) : bool :=
  match s with
  | String c r => negb (Ascii.eqb c ")"%char) && no_rparen r
  | EmptyString => true
  end.

(** [style] has a match of the pattern whose group is [url]. *)
Definition background_image_match (style url : string) : Prop :=
  exists before spaces after,
    style = before +:+ "background-image:" +:+ spaces +:+ "url(" +:+ url +:+ ")" +:+ after
    /\ all_space spaces = true /\ url <> "" /\ no_rparen url = true.


(** The text of the [RequestException] that an answer makes
    [requests.get] or [raise_for_status] raise, if it does. *)
Definition transport_error (rp : reply) : option string :=
  match rp with
  | Refused msg => Some msg
  | Answer r =>
      if Requests.is_error r then Some ("HTTPError: " +:+ pretty (status_code r)) else None
  end.

(** From [w] to [w'] nothing on disk changed and no tagging was counted. *)
Definition same_disk (w w' : World) : Prop :=
  files w' = files w /\ dirs w' = dirs w /\ tagged w' = tagged w.

(** A candidate for which the resolver is called. *)
Definition has_data_id (div : Bs4.Node) : bool :=
  Py.truthy (AudiobookScraper.data_id_of div).

(** A string without braces. *)
Fixpoint no_brace (s : string) : bool :=
  match s with
  | String c r =>
      negb (Ascii.eqb c "{"%char) && negb (Ascii.eqb c "}"%char) && no_brace r
  | EmptyString => true
  end.

(** A candidate without a title element, or with one that holds nothing
    but white space. *)
Definition title_blank (div : Bs4.Node) : bool :=
  match Bs4.find_class "div" "title" div with
  | Some title_div => forallb all_space (Bs4.all_strings title_div)
  | None => true
  end.

(** ** The script, run from the command line *)

(** How the interpreter ends: [sys.exit(code)] or falling off the end of
    the script, or an exception that nothing caught. *)
Inductive status : Type :=
| Exit (code : Z)
| Traceback (e : exn).

(** The exit status the shell sees. *)
Definition exit_code (s : status) : Z :=
  match s with
  | Exit code => code
  | Traceback _ => 1
  end.

(** [path.is_dir()] *)
Definition is_dir (p : string) (w : World) : bool := bool_decide (p ∈ dirs w).

(** The block under [if __name__ == '__main__'], on [sys.argv]: how it
    ends, the lines it prints, and the world it leaves. *)
Definition script `{Collaborators} (argv : list string) (w : World)
    : status * list string * World :=
  match argv with
  | [_; destination_dir] =>
      if negb (is_dir destination_dir w)
      then (Exit 1,
            ["The destination path '" +:+ destination_dir +:+ "' is not a directory."], w)
      else
        match main destination_dir w with
        | (inr _, w') => (Exit 0, [], w')
        | (inl e, w') => (Traceback e, [], w')
        end
  | _ => (Exit 1, ["Usage: python script.py <destination_directory>"], w)
  end.

(** ** Concrete documents and collaborators

    The inputs at which the properties below are run. *)
Module Fixtures.
Import Bs4.

(** [<span class="audiobook"></span>] *)
Definition span_audiobook : Node := Tag "span" {[ "class" := "audiobook" ]} [].

(** A document that holds only that element. *)
Definition soup_span : Node := Tag "[document]" ∅ [span_audiobook].

(** *** A small tag codec

    The tag is written in front of the audio bytes: the marker [ID3], the
    bits of the tag's code, and a closing byte. *)

#[global] Instance byte_eq_dec : EqDecision byte := Byte.byte_eq_dec.
#[global] Instance byte_countable : Countable byte :=
  inj_countable Byte.to_N Byte.of_N Byte.of_to_N.
#[global] Instance Frame_eq_dec : EqDecision Frame.
Proof. solve_decision. Defined.

Definition Frame_to_sum (f : Frame)
    : (Z * string) + (Z * string) + (Z * string * Z * string * bytes) + (string * bytes) :=
  match f with
  | TIT2 e t => inl (inl (inl (e, t)))
  | TALB e t => inl (inl (inr (e, t)))
  | APIC e m ty d b => inl (inr (e, m, ty, d, b))
  | OtherFrame k b => inr (k, b)
  end.

Definition Frame_of_sum
    (s : (Z * string) + (Z * string) + (Z * string * Z * string * bytes) + (string * bytes))
    : Frame :=
  match s with
  | inl (inl (inl (e, t))) => TIT2 e t
  | inl (inl (inr (e, t))) => TALB e t
  | inl (inr (e, m, ty, d, b)) => APIC e m ty d b
  | inr (k, b) => OtherFrame k b
  end.

#[global] Instance Frame_countable : Countable Frame.
Proof.
  apply (inj_countable' Frame_to_sum Frame_of_sum). by intros [].
Defined.

Fixpoint pos_bytes (p : positive) : bytes :=
  match p with
  | xH => [x02]
  | xO q => x00 :: pos_bytes q
  | xI q => x01 :: pos_bytes q
  end.

Fixpoint read_pos (b : bytes) : option (positive * bytes) :=
  match b with
  | x02 :: r => Some (xH, r)
  | x00 :: r => match read_pos r with Some (q, rest) => Some (xO q, rest) | None => None end
  | x01 :: r => match read_pos r with Some (q, rest) => Some (xI q, rest) | None => None end
  | _ => None
  end.

Definition tag_load (b : bytes) : loaded :=
  match b with
  | x49 :: x44 :: x33 :: r =>
      match read_pos r with
      | Some (p, _) =>
          match decode p with
          | Some audio => Header audio
          | None => Unreadable "no tag in the header"
          end
      | None => Unreadable "header cut short"
      end
  | _ => NoHeader
  end.

Definition tag_body (b : bytes) : bytes :=
  match b with
  | x49 :: x44 :: x33 :: r =>
      match read_pos r with
      | Some (_, rest) => rest
      | None => b
      end
  | _ => b
  end.

Definition tag_save (audio : ID3) (b : bytes) : bytes :=
  x49 :: x44 :: x33 :: (pos_bytes (encode audio) ++ tag_body b)%list.

(** The collaborators of the fixtures: a network, a parser, and the codec. *)
Definition collaborators (net : nat -> string -> reply) (parser : bytes -> exn + Node)
    : Collaborators :=
  {| http_get n url _ := net n url;
     html_parser := parser;
     ID3_load := tag_load;
     ID3_save := tag_save |}.

Definition empty_world : World := mkWorld ∅ ∅ [] 0 0 0.

Definition ok (b : bytes) : reply := Answer (mkResponse 200 b b).

(** *** A detail page with two MPEG sources, the first without [src] *)
Definition source_without_src : Node :=
  Tag "source" {[ "type" := "audio/mpeg" ]} [].
Definition source_with_src : Node :=
  Tag "source" {[ "type" := "audio/mpeg"; "src" := "http://x/a.mp3" ]} [].
Definition two_sources : Node :=
  Tag "[document]" ∅ [Tag "audio" ∅ [source_without_src; source_with_src]].

Definition two_sources_site : Collaborators :=
  collaborators (fun _ _ => ok [x01]) (fun _ => inr two_sources).

Definition kubus : AudiobookScraper.t :=
  AudiobookScraper.mk "https://kubus.pl/audiobooki/" ∅ "https://kubus.pl/?p={data_id}".

(** *** A network that is down *)
Definition offline : Collaborators :=
  collaborators (fun _ _ => Refused "Connection refused")
    (fun _ => inl (ParserRejectedMarkup "no markup")).

(** *** Networks for the downloader

    [failing] fails in a different way at each request: refused, an empty
    body, a body of which nothing is written. [flaky] refuses the first
    request, answers the second with status 503 and serves the file from
    the third on. *)
Definition no_parser : bytes -> exn + Node :=
  fun _ => inl (ParserRejectedMarkup "no markup").

Definition failing : Collaborators :=
  collaborators
    (fun n _ =>
       match n with
       | O => Refused "Read timed out"
       | S O => Answer (mkResponse 200 [] [])
       | _ => Answer (mkResponse 200 [x4d; x50; x33] [])
       end)
    no_parser.

Definition flaky : Collaborators :=
  collaborators
    (fun n _ =>
       match n with
       | O => Refused "Read timed out"
       | S O => Answer (mkResponse 503 [x00] [x00])
       | _ => ok [x4d; x50; x33]
       end)
    no_parser.

(** *** A catalog of four candidates

    [Story A] has no cover element, [Story B] is complete, the detail page
    of [Story C] cannot be fetched, and the last candidate has no
    [data-id]. *)
Definition cover_div : Node :=
  Tag "div" {[ "class" := "cover lazyBackgroundNone";
               "style" := "background-image: url(http://x/c.jpg)" ]} [].

Definition item_a : Node :=
  Tag "div" {[ "class" := "audiobook"; "data-id" := "41" ]}
    [Tag "div" {[ "class" := "title" ]} [NavigableString " Story A "]].

Definition item_b : Node :=
  Tag "div" {[ "class" := "item audiobook"; "data-id" := "42" ]}
    [cover_div; Tag "div" {[ "class" := "title" ]} [NavigableString "Story B"]].

Definition item_c : Node :=
  Tag "div" {[ "class" := "audiobook"; "data-id" := "43" ]}
    [cover_div; Tag "div" {[ "class" := "title" ]} [NavigableString "Story C"]].

Definition item_without_id : Node :=
  Tag "div" {[ "class" := "audiobook" ]}
    [cover_div; Tag "div" {[ "class" := "title" ]} [NavigableString "Story D"]].

Definition catalog : Node :=
  Tag "[document]" ∅
    [Tag "div" {[ "class" := "audiobooks-wrapper" ]}
       [item_a; item_b; item_c; item_without_id]].

Definition detail : Node :=
  Tag "[document]" ∅ [Tag "audio" ∅ [source_with_src]].

Definition jpeg : bytes := [xff; xd8; xff; xe0].
Definition mp3 : bytes := [x4d; x50; x33].

Definition site_net (n : nat) (url : string) : reply :=
  if String.eqb url "https://kubus.pl/audiobooki/" then ok [x01]
  else if String.eqb url "https://kubus.pl/?p=41" then ok [x02]
  else if String.eqb url "https://kubus.pl/?p=42" then ok [x02]
  else if String.eqb url "http://x/c.jpg" then ok jpeg
  else if String.eqb url "http://x/a.mp3" then ok mp3
  else Refused "Connection refused".

Definition site_parser (b : bytes) : exn + Node :=
  match b with
  | [x01] => inr catalog
  | [x02] => inr detail
  | _ => inr (Tag "[document]" ∅ [])
  end.

Definition site : Collaborators := collaborators site_net site_parser.

(** The processor of an item whose two files the site serves. *)
Definition story : AudiobookProcessor.t :=
  AudiobookProcessor.make "Story" (Some "http://x/c.jpg") (Some "http://x/a.mp3")
    "Kubus Storytel" "/dst".

(** *** A body of one byte more than a chunk *)
Definition big : bytes := repeat x00 (Z.to_nat 8193).

Definition big_site : Collaborators := collaborators (fun _ _ => ok big) no_parser.

(** *** Worlds with something on disk *)

(** The destination directory exists and is empty. *)
Definition fresh : World := mkWorld ∅ {[ "/dst" ]} [] 0 0 0.

End Fixtures.

(** * Properties *)

(** ** Strings *)

Lemma append_cons (c : ascii) (s t : string) : String c s +:+ t = String c (s +:+ t).
Proof. reflexivity. Qed.

Lemma append_nil_r (s : string) : s +:+ "" = s.
Proof. induction s as [|c s IH]; [reflexivity|by rewrite append_cons, IH]. Qed.

Lemma append_ne_self (s t : string) : t <> "" -> s +:+ t <> s.
Proof.
  intros Ht Heq. assert (Heq' : s +:+ t = s +:+ "") by (by rewrite append_nil_r).
  apply (inj (String.app s)) in Heq'. contradiction.
Qed.

Lemma strip_prefix_app (p s : string) : Py.strip_prefix p (p +:+ s) = Some s.
Proof.
  induction p as [|c p IH]; [reflexivity|].
  rewrite append_cons. simpl. rewrite Ascii.eqb_refl. exact IH.
Qed.

Lemma strip_prefix_inv (p s rest : string) :
  Py.strip_prefix p s = Some rest -> s = p +:+ rest.
Proof.
  revert s. induction p as [|a p IH]; intros s Hs.
  - by injection Hs as ->.
  - destruct s as [|b s]; [discriminate|]. simpl in Hs.
    destruct (Ascii.eqb a b) eqn:Hab; [|discriminate].
    apply Ascii.eqb_eq in Hab as ->. rewrite append_cons. f_equal. by apply IH.
Qed.



(** ** Cover-URL extraction *)

Lemma skip_spaces_inv (s : string) :
  exists spaces, s = spaces +:+ Re.skip_spaces s /\ all_space spaces = true.
Proof.
  induction s as [|c s (spaces & Hs & Hsp)]; [by exists ""|].
  simpl. destruct (Py.isspace c) eqn:Hc.
  - exists (String c spaces). rewrite append_cons, <- Hs. simpl. by rewrite Hc.
  - by exists "".
Qed.

Lemma skip_spaces_app (spaces rest : string) :
  all_space spaces = true -> Re.skip_spaces rest = rest ->
  Re.skip_spaces (spaces +:+ rest) = rest.
Proof.
  intros Hsp Hrest. induction spaces as [|c spaces IH]; [exact Hrest|].
  simpl in Hsp. apply andb_true_iff in Hsp as [Hc Hsp].
  rewrite append_cons. simpl. rewrite Hc. by apply IH.
Qed.

Lemma span_no_rparen_inv (s u rest : string) :
  Re.span_no_rparen s = (u, rest) ->
  s = u +:+ rest /\ no_rparen u = true /\
  (rest = "" \/ exists after, rest = ")" +:+ after).
Proof.
  revert u rest. induction s as [|c s IH]; intros u rest Hs.
  - injection Hs as <- <-. auto.
  - simpl in Hs. destruct (Ascii.eqb c ")") eqn:Hc.
    + injection Hs as <- <-. apply Ascii.eqb_eq in Hc as ->. eauto.
    + destruct (Re.span_no_rparen s) as [u' rest'] eqn:Hspan. injection Hs as <- <-.
      destruct (IH u' rest' eq_refl) as (-> & Hu & Hrest).
      rewrite append_cons. simpl. rewrite Hc. auto.
Qed.

Lemma span_no_rparen_app (u after : string) :
  no_rparen u = true -> Re.span_no_rparen (u +:+ ")" +:+ after) = (u, ")" +:+ after).
Proof.
  intros Hu. induction u as [|c u IH]; [reflexivity|].
  simpl in Hu. apply andb_true_iff in Hu as [Hc Hu]. apply negb_true_iff in Hc.
  rewrite append_cons. simpl. rewrite Hc, IH by exact Hu. reflexivity.
Qed.

Lemma background_image_at_inv (s url : string) :
  Re.background_image_at s = Some url ->
  exists spaces after,
    s = "background-image:" +:+ spaces +:+ "url(" +:+ url +:+ ")" +:+ after
    /\ all_space spaces = true /\ url <> "" /\ no_rparen url = true.
Proof.
  unfold Re.background_image_at, mbind, option_bind. intros Hs.
  destruct (Py.strip_prefix "background-image:" s) as [rest|] eqn:Hp; [|discriminate].
  destruct (Py.strip_prefix "url(" (Re.skip_spaces rest)) as [rest'|] eqn:Hu; [|discriminate].
  destruct (Re.span_no_rparen rest') as [u tail] eqn:Hspan.
  destruct u as [|c u]; [discriminate|]. destruct tail as [|t tail]; [discriminate|].
  injection Hs as <-.
  apply strip_prefix_inv in Hp, Hu.
  destruct (skip_spaces_inv rest) as (spaces & Hrest & Hsp).
  apply span_no_rparen_inv in Hspan as (-> & Hnp & [Hnil|(after & Hafter)]); [discriminate|].
  exists spaces, after. rewrite Hp, Hrest, Hu, Hafter. repeat split; done.
Qed.

Lemma background_image_at_app (spaces url after : string) :
  all_space spaces = true -> url <> "" -> no_rparen url = true ->
  Re.background_image_at
    ("background-image:" +:+ spaces +:+ "url(" +:+ url +:+ ")" +:+ after) = Some url.
Proof.
  intros Hsp Hne Hnp. unfold Re.background_image_at, mbind, option_bind.
  rewrite strip_prefix_app.
  rewrite skip_spaces_app by (exact Hsp || reflexivity).
  rewrite strip_prefix_app. rewrite span_no_rparen_app by exact Hnp.
  destruct url; [contradiction|reflexivity].
Qed.

Lemma background_image_search_unfold (s : string) :
  Re.background_image_search s
  = match Re.background_image_at s with
    | Some u => Some u
    | None =>
        match s with
        | String _ r => Re.background_image_search r
        | EmptyString => None
        end
    end.
Proof. destruct s; reflexivity. Qed.

(** The search finds a match, and finds one whenever there is one. *)
Lemma background_image_search_sound (s url : string) :
  Re.background_image_search s = Some url -> background_image_match s url.
Proof.
  induction s as [|c s IH]; simpl.
  - discriminate.
  - destruct (Re.background_image_at (String c s)) as [u|] eqn:Hat.
    + intros [= ->]. apply background_image_at_inv in Hat as (spaces & after & Hs & H).
      exists "", spaces, after. split; [exact Hs|exact H].
    + intros Hs. destruct (IH Hs) as (before & spaces & after & -> & H).
      exists (String c before), spaces, after. split; [by rewrite append_cons|exact H].
Qed.

Lemma background_image_search_complete (s url : string) :
  background_image_match s url -> exists u, Re.background_image_search s = Some u.
Proof.
  intros (before & spaces & after & -> & Hsp & Hne & Hnp).
  induction before as [|c before IH].
  - change ("" +:+ ?x) with x. exists url.
    rewrite background_image_search_unfold.
    by rewrite (background_image_at_app spaces url after Hsp Hne Hnp).
  - rewrite append_cons, background_image_search_unfold.
    destruct (Re.background_image_at _); eauto.
Qed.

Lemma background_image_search_none (s : string) :
  Re.background_image_search s = None <-> forall url, ~ background_image_match s url.
Proof.
  split.
  - intros Hn url Hm. apply background_image_search_complete in Hm as [u Hu]. congruence.
  - intros Hn. destruct (Re.background_image_search s) as [u|] eqn:Hs; [|reflexivity].
    apply background_image_search_sound in Hs. by apply Hn in Hs.
Qed.

Section CoverUrl.
Import Py Bs4 AudiobookScraper.

(** [extract_image_url] returns on every input, with what the pattern
    finds in the style attribute. *)
Lemma extract_image_url_total (self : t) (cover_div : option Node) (w : World) :
  exists w', extract_image_url self cover_div w
     = (inr (div ← cover_div; style ← get div "style"; Re.background_image_search style), w').
Proof.
  destruct cover_div as [div|]; simpl; [|eauto].
  destruct (get div "style") as [style|]; simpl; eauto.
Qed.

(** C7. A cover element whose style is [background-image: url(http://x/c.jpg)]
    gives [http://x/c.jpg], and so does every style that starts with a
    match of the pattern, with the group of that match; no cover element,
    no style attribute or a style in which the pattern has no match give
    [None]; and no input makes [extract_image_url] raise. *)
Theorem extract_image_url_spec (self : t) (w : World) :
  (forall div, get div "style" = Some "background-image: url(http://x/c.jpg)" ->
     result (extract_image_url self (Some div)) w = inr (Some "http://x/c.jpg")) /\
  result (extract_image_url self None) w = inr None /\
  (forall div, get div "style" = None ->
     result (extract_image_url self (Some div)) w = inr None) /\
  (forall div style, get div "style" = Some style ->
     (forall url, ~ background_image_match style url) ->
     result (extract_image_url self (Some div)) w = inr None) /\
  (forall div spaces url after,
     get div "style"
     = Some ("background-image:" +:+ spaces +:+ "url(" +:+ url +:+ ")" +:+ after) ->
     all_space spaces = true -> url <> "" -> no_rparen url = true ->
     result (extract_image_url self (Some div)) w = inr (Some url)) /\
  (forall cover_div, exists url, result (extract_image_url self cover_div) w = inr url).
Proof.
  assert (Hall : forall c, result (extract_image_url self c) w
            = inr (div ← c; style ← get div "style"; Re.background_image_search style)).
  { intros c. unfold result.
    destruct (extract_image_url_total self c w) as [w' ->]. reflexivity. }
  assert (Hstyle : forall div style, get div "style" = Some style ->
            result (extract_image_url self (Some div)) w
            = inr (Re.background_image_search style)).
  { intros div style Hs. rewrite Hall. simpl. rewrite Hs. reflexivity. }
  split; [|split; [|split; [|split; [|split]]]].
  - intros div Hs. rewrite (Hstyle div _ Hs). reflexivity.
  - apply Hall.
  - intros div Hs. rewrite Hall. simpl. rewrite Hs. reflexivity.
  - intros div style Hs Hn. apply background_image_search_none in Hn.
    rewrite (Hstyle div _ Hs), Hn. reflexivity.
  - intros div spaces url after Hs Hsp Hne Hnp.
    rewrite (Hstyle div _ Hs), background_image_search_unfold.
    by rewrite (background_image_at_app spaces url after Hsp Hne Hnp).
  - intros c. rewrite Hall. eauto.
Qed.

End CoverUrl.

(** The cover element of the fixture catalog. *)
Lemma extract_image_url_spec_witness :
  result (AudiobookScraper.extract_image_url Fixtures.kubus (Some Fixtures.cover_div))
    Fixtures.empty_world
  = inr (Some "http://x/c.jpg").
Proof.
  apply (proj1 (extract_image_url_spec Fixtures.kubus Fixtures.empty_world)).
  reflexivity.
Defined.

(** ** The elements the extractor selects *)
Section Candidates.
Import Py Bs4 AudiobookScraper.

Lemma elem_of_candidates (soup n : Node) :
  n ∈ candidates soup <->
  n ∈ descendants soup /\ has_name "div" n = true
  /\ class_matches Re.audiobook_search n = true.
Proof.
  unfold candidates, find_all_class.
  rewrite !list_elem_of_In, filter_In, andb_true_iff. tauto.
Qed.

Lemma class_matches_token (test : string -> bool) (n : Node) (v tok : string) :
  get n "class" = Some v -> tok ∈ tokens v -> test tok = true ->
  class_matches test n = true.
Proof.
  intros Hc Hin Ht. unfold class_matches. rewrite Hc.
  apply orb_true_iff. left. apply existsb_exists.
  exists tok. split; [by apply list_elem_of_In | done].
Qed.

(** C10, as the code has it. The extractor selects exactly the [div]
    elements below the document one of whose class tokens (or whose class
    tokens joined by single spaces) has a match of [\baudiobook\b]. An
    element of class [audiobooks-wrapper] is not selected; a [div] whose
    class list holds the token [audiobook] is. *)
Theorem candidates_spec (soup : Node) :
  (forall n, n ∈ candidates soup <->
     n ∈ descendants soup /\ has_name "div" n = true /\
     exists v, get n "class" = Some v /\
       (existsb Re.audiobook_search (tokens v)
        || Re.audiobook_search (join " " (tokens v))) = true) /\
  (forall n, get n "class" = Some "audiobooks-wrapper" -> n ∉ candidates soup) /\
  (forall n v, n ∈ descendants soup -> has_name "div" n = true ->
     get n "class" = Some v -> "audiobook" ∈ tokens v -> n ∈ candidates soup).
Proof.
  split; [|split].
  - intros n. rewrite elem_of_candidates. unfold class_matches.
    destruct (get n "class") as [v|].
    + split.
      * intros (Hd & Hn & Hm). eauto.
      * intros (Hd & Hn & v' & [= <-] & Hm). eauto.
    + split.
      * intros (_ & _ & [=]).
      * intros (_ & _ & v' & [=] & _).
  - intros n Hc Hin. apply elem_of_candidates in Hin as (_ & _ & Hm).
    unfold class_matches in Hm. rewrite Hc in Hm. vm_compute in Hm. discriminate.
  - intros n v Hd Hn Hc Htok. apply elem_of_candidates. repeat split; try done.
    eapply class_matches_token; eauto.
Qed.

(** An element of class [audiobook] that is not a [div] is not selected:
    C10 as stated fails on [<span class="audiobook">]. *)
Lemma candidates_skip_span :
  Fixtures.span_audiobook ∈ descendants Fixtures.soup_span /\
  get Fixtures.span_audiobook "class" = Some "audiobook" /\
  "audiobook" ∈ tokens "audiobook" /\
  Re.audiobook_search "audiobook" = true /\
  Fixtures.span_audiobook ∉ candidates Fixtures.soup_span.
Proof.
  repeat split.
  - simpl. apply list_elem_of_here.
  - vm_compute. apply list_elem_of_here.
  - intros Hin. apply elem_of_candidates in Hin as (_ & Hn & _). discriminate.
Qed.

(** The selection on a [div] with its class among other tokens. *)
Lemma candidates_spec_witness :
  let div := Tag "div" {[ "class" := "item audiobook" ]} [] in
  div ∈ candidates (Tag "[document]" ∅ [div]).
Proof.
  intros div.
  apply (proj2 (proj2 (candidates_spec (Tag "[document]" ∅ [div]))) div "item audiobook").
  - simpl. apply list_elem_of_here.
  - reflexivity.
  - reflexivity.
  - vm_compute. apply list_elem_of_further, list_elem_of_here.
Defined.

End Candidates.

(** ** The asset resolver *)

Lemma head_filter_first {A : Type} (f : A -> bool) (pre post : list A) (x : A) :
  Forall (fun y => f y = false) pre -> f x = true ->
  List.head (List.filter f (pre ++ x :: post)) = Some x.
Proof.
  intros Hpre Hx. induction Hpre as [|y pre Hy _ IH]; simpl.
  - rewrite Hx. reflexivity.
  - rewrite Hy. exact IH.
Qed.

Lemma head_filter_none {A : Type} (f : A -> bool) (l : list A) :
  Forall (fun y => f y = false) l -> List.head (List.filter f l) = None.
Proof.
  intros Hl. induction Hl as [|y l Hy _ IH]; simpl; [reflexivity|].
  rewrite Hy. exact IH.
Qed.

Section Resolver.
Context `{Collaborators}.
Import Py Bs4 AudiobookScraper.

Lemma get_audio_src_refused (self : t) (data_id : string) (w : World) (msg : string) :
  http_get (clock w) (detail_url self data_id) (headers self) = Refused msg ->
  result (get_audio_src self data_id) w = inr None.
Proof.
  intros Hr. unfold result, get_audio_src, try_except. simpl.
  unfold mbind, M_bind, Requests.get, logging. simpl.
  rewrite Hr. reflexivity.
Qed.

Lemma get_audio_src_status (self : t) (data_id : string) (w : World) (r : Response) :
  http_get (clock w) (detail_url self data_id) (headers self) = Answer r ->
  Requests.is_error r = true ->
  result (get_audio_src self data_id) w = inr None.
Proof.
  intros Hr Hs. unfold result, get_audio_src, try_except. simpl.
  unfold mbind, M_bind, Requests.get, logging. simpl.
  rewrite Hr. simpl. unfold Requests.raise_for_status. rewrite Hs. reflexivity.
Qed.

Lemma get_audio_src_parsed (self : t) (data_id : string) (w : World) (r : Response)
    (soup : Node) :
  http_get (clock w) (detail_url self data_id) (headers self) = Answer r ->
  Requests.is_error r = false ->
  html_parser (content r) = inr soup ->
  result (get_audio_src self data_id) w
  = inr (tag ← find_attr "source" "type" "audio/mpeg" soup; get tag "src").
Proof.
  intros Hr Hs Hp. unfold result, get_audio_src, try_except. simpl.
  unfold mbind, M_bind, Requests.get, logging. simpl.
  rewrite Hr. simpl. unfold Requests.raise_for_status. rewrite Hs. simpl.
  unfold parse. rewrite Hp. simpl.
  destruct (find_attr _ _ _ _); reflexivity.
Qed.

(** C8, as the code has it. When the request is refused or answered with
    an error status, [get_audio_src] returns [None] and does not raise.
    When the answer parses, it returns the [src] attribute of the first
    [source] element of type [audio/mpeg] in document order, [None] if
    that element has no [src], and [None] if the document has no such
    element. *)
Theorem get_audio_src_spec (self : t) (data_id : string) (w : World) :
  (forall msg,
     http_get (clock w) (detail_url self data_id) (headers self) = Refused msg ->
     result (get_audio_src self data_id) w = inr None) /\
  (forall r,
     http_get (clock w) (detail_url self data_id) (headers self) = Answer r ->
     Requests.is_error r = true ->
     result (get_audio_src self data_id) w = inr None) /\
  (forall r soup,
     http_get (clock w) (detail_url self data_id) (headers self) = Answer r ->
     Requests.is_error r = false ->
     html_parser (content r) = inr soup ->
     (forall pre tag post,
        descendants soup = (pre ++ tag :: post)%list ->
        Forall (fun n => matches_attr "source" "type" "audio/mpeg" n = false) pre ->
        matches_attr "source" "type" "audio/mpeg" tag = true ->
        result (get_audio_src self data_id) w = inr (get tag "src")) /\
     (Forall (fun n => matches_attr "source" "type" "audio/mpeg" n = false)
        (descendants soup) ->
      result (get_audio_src self data_id) w = inr None)).
Proof.
  split; [|split].
  - intros msg. apply get_audio_src_refused.
  - intros r. apply get_audio_src_status.
  - intros r soup Hr Hs Hp.
    rewrite (get_audio_src_parsed self data_id w r soup Hr Hs Hp).
    unfold find_attr. split.
    + intros pre tag post -> Hpre Htag.
      rewrite head_filter_first by assumption. reflexivity.
    + intros Hnone. rewrite head_filter_none by assumption. reflexivity.
Qed.

End Resolver.

(** A detail page whose second MPEG source carries the [src] and whose
    first does not: the resolver returns [None], against C8 as stated. *)
Lemma get_audio_src_first_only :
  Fixtures.source_with_src ∈ Bs4.descendants Fixtures.two_sources /\
  Bs4.matches_attr "source" "type" "audio/mpeg" Fixtures.source_with_src = true /\
  Bs4.get Fixtures.source_with_src "src" = Some "http://x/a.mp3" /\
  result (AudiobookScraper.get_audio_src (H := Fixtures.two_sources_site)
            Fixtures.kubus "42") Fixtures.empty_world = inr None.
Proof.
  repeat split.
  simpl. do 2 apply list_elem_of_further. apply list_elem_of_here.
Qed.

(** The resolver on that page, by the first source. *)
Lemma get_audio_src_spec_witness :
  result (AudiobookScraper.get_audio_src (H := Fixtures.two_sources_site)
            Fixtures.kubus "42") Fixtures.empty_world
  = inr (Bs4.get Fixtures.source_without_src "src").
Proof.
  refine (proj1 (proj2 (proj2 (get_audio_src_spec (H := Fixtures.two_sources_site)
            Fixtures.kubus "42" Fixtures.empty_world))
            (mkResponse 200 [x01] [x01]) Fixtures.two_sources eq_refl eq_refl eq_refl)
          [Bs4.Tag "audio" ∅ [Fixtures.source_without_src; Fixtures.source_with_src]]
          Fixtures.source_without_src [Fixtures.source_with_src] eq_refl _ eq_refl).
  repeat constructor.
Defined.

(** ** The monad, step by step *)
Section Steps.
Context {A B : Type}.

Lemma bind_raises (m : M A) (f : A -> M B) (w w' : World) (e : exn) :
  m w = (inl e, w') -> (m ≫= f) w = (inl e, w').
Proof. intros Hm. unfold mbind, M_bind. rewrite Hm. reflexivity. Qed.

Lemma bind_returns (m : M A) (f : A -> M B) (w w' : World) (x : A) :
  m w = (inr x, w') -> (m ≫= f) w = f x w'.
Proof. intros Hm. unfold mbind, M_bind. rewrite Hm. reflexivity. Qed.

Lemma try_except_returns (m : M A) (sel : exn -> bool) (h : exn -> M A)
    (w w' : World) (x : A) :
  m w = (inr x, w') -> try_except m sel h w = (inr x, w').
Proof. intros Hm. unfold try_except. rewrite Hm. reflexivity. Qed.

Lemma try_except_caught (m : M A) (sel : exn -> bool) (h : exn -> M A)
    (w w' : World) (e : exn) :
  m w = (inl e, w') -> sel e = true -> try_except m sel h w = h e w'.
Proof. intros Hm Hs. unfold try_except. rewrite Hm, Hs. reflexivity. Qed.

Lemma try_except_passed (m : M A) (sel : exn -> bool) (h : exn -> M A)
    (w w' : World) (e : exn) :
  m w = (inl e, w') -> sel e = false -> try_except m sel h w = (inl e, w').
Proof. intros Hm Hs. unfold try_except. rewrite Hm, Hs. reflexivity. Qed.

End Steps.

Lemma run_pair {A : Type} (m : M A) (w : World) : m w = (result m w, after m w).
Proof. unfold result, after. destruct (m w); reflexivity. Qed.

(** ** The scraping run *)
Section Run.
Context `{Collaborators}.
Import Py Bs4 AudiobookScraper.

(** C9. When fetching or parsing the catalog page raises, [run] logs the
    error and returns the empty list; and [run] raises on no input. *)
Theorem run_spec (self : t) (w : World) :
  (forall e, result (fetch_page self) w = inl e ->
     result (run self) w = inr [] /\
     log (after (run self) w)
     = (log (after (fetch_page self) w)
        ++ [(ERROR, "An error occurred during the scraping process: " +:+ str e)])%list) /\
  (exists audiobooks, result (run self) w = inr audiobooks).
Proof.
  split.
  - intros e He. pose proof (run_pair (fetch_page self) w) as Hf. rewrite He in Hf.
    unfold result, after, run.
    erewrite try_except_caught;
      [|apply bind_raises; exact Hf|reflexivity].
    split; reflexivity.
  - unfold result, run, try_except.
    destruct ((fetch_page self ≫= _) w) as [[e|audiobooks] w']; simpl; eauto.
Qed.

End Run.

(** With the network down, the run returns the empty list. *)
Lemma run_spec_witness :
  result (AudiobookScraper.run (H := Fixtures.offline) Fixtures.kubus) Fixtures.empty_world
  = inr [].
Proof.
  apply (proj1 (run_spec (H := Fixtures.offline) Fixtures.kubus Fixtures.empty_world)
           (RequestException "Connection refused")).
  reflexivity.
Defined.

(** ** Writing a body to a file *)

Lemma only_wrote_refl (p : string) (w : World) : only_wrote p w w.
Proof. repeat split. Qed.

Lemma only_wrote_trans (p : string) (w1 w2 w3 : World) :
  only_wrote p w1 w2 -> only_wrote p w2 w3 -> only_wrote p w1 w3.
Proof.
  intros (Hd1 & Ht1 & Hf1) (Hd2 & Ht2 & Hf2). repeat split; try congruence.
  intros q Hq. rewrite Hf2, Hf1; done.
Qed.

Lemma slices_concat (fuel n : nat) (b : bytes) :
  (0 < n)%nat -> (length b <= fuel)%nat -> concat (Requests.slices fuel n b) = b.
Proof.
  intros Hn. revert b. induction fuel as [|k IH]; intros b Hb.
  - destruct b; [reflexivity|simpl in Hb; lia].
  - destruct b as [|x b']; [reflexivity|].
    cbn [Requests.slices concat]. rewrite IH.
    + apply take_drop.
    + rewrite length_drop. simpl in *. lia.
Qed.

(** The pieces of [iter_content] make up the body. *)
Lemma iter_content_concat (n : Z) (r : Response) :
  concat (Requests.iter_content n r) = raw r.
Proof.
  unfold Requests.iter_content. destruct (raw r) as [|x b] eqn:Hb; [reflexivity|].
  apply slices_concat; [|lia].
  destruct (n <=? 0) eqn:Hn; [simpl; lia|]. apply Z.leb_gt in Hn. lia.
Qed.

Lemma write_all_spec (p : string) (chunks : list bytes) (w : World) (cur : bytes) :
  files w !! p = Some cur ->
  Fs.write_all p chunks w
  = (inr tt, mkWorld (<[p := (cur ++ concat chunks)%list]> (files w)) (dirs w) (log w)
               (clock w) (tagged w) (Nat.max (peak w) (max_len chunks))).
Proof.
  revert w cur. induction chunks as [|c chunks IH]; intros w cur Hcur.
  - simpl. rewrite app_nil_r, insert_id by done. rewrite Nat.max_0_r. by destruct w.
  - cbn [Fs.write_all]. unfold mbind, M_bind. unfold Fs.write at 1.
    rewrite Hcur. simpl default.
    rewrite (IH _ (cur ++ c)%list).
    + simpl. rewrite insert_insert_eq, <- app_assoc, Nat.max_assoc. reflexivity.
    + simpl. apply lookup_insert_eq.
Qed.

(** ** The retrying downloader *)
Section DownloadMp3.
Context `{Collaborators}.
Import FileManager.

Lemma attempt_mp3_fails (u dest : string) (attempt : Z) (w : World) :
  dest ∉ dirs w ->
  attempt_fails (http_get (clock w) u mp3_headers) = true ->
  exists e w', attempt_mp3 (Some u) dest attempt w = (inl e, w')
    /\ is_RequestException_or_ValueError e = true
    /\ clock w' = S (clock w) /\ only_wrote dest w w'.
Proof.
  intros Hdir Hfail. unfold attempt_mp3, mbind, M_bind, logging, Requests.get. simpl.
  destruct (http_get (clock w) u mp3_headers) as [msg|r]; simpl.
  { do 2 eexists. repeat split. }
  unfold Requests.raise_for_status. simpl in Hfail.
  destruct (Requests.is_error r); simpl. { do 2 eexists. repeat split. }
  unfold raise. destruct (content r) as [|c0 cs] eqn:Hc; simpl.
  { do 2 eexists. repeat split. }
  simpl in Hfail. destruct (raw r) as [|r0 rs] eqn:Hr; [|discriminate].
  unfold Fs.open_wb. simpl. rewrite bool_decide_eq_false_2 by done. simpl.
  unfold Requests.iter_content. rewrite Hr. simpl.
  unfold Fs.st_size, Fs.read, mbind, M_bind. simpl. rewrite lookup_insert_eq. simpl.
  do 2 eexists. repeat split. simpl. intros q Hq. by rewrite lookup_insert_ne.
Qed.

Lemma attempt_mp3_succeeds (u dest : string) (attempt : Z) (w : World) (r : Response) :
  dest ∉ dirs w ->
  http_get (clock w) u mp3_headers = Answer r ->
  attempt_fails (Answer r) = false ->
  exists w', attempt_mp3 (Some u) dest attempt w = (inr tt, w')
    /\ files w' !! dest = Some (raw r)
    /\ clock w' = S (clock w) /\ only_wrote dest w w'.
Proof.
  intros Hdir Hr Hok. unfold attempt_mp3, mbind, M_bind, logging, Requests.get. simpl.
  rewrite Hr. simpl. simpl in Hok. apply orb_false_iff in Hok as [Hok Hraw].
  apply orb_false_iff in Hok as [Herr Hcont].
  unfold Requests.raise_for_status. rewrite Herr. simpl.
  destruct (content r) as [|c0 cs] eqn:Hc; [discriminate|].
  unfold Fs.open_wb. simpl. rewrite bool_decide_eq_false_2 by done.
  match goal with |- context [Fs.write_all ?p ?c ?w0] =>
    rewrite (write_all_spec p c w0 []) by (simpl; apply lookup_insert_eq) end.
  rewrite iter_content_concat. simpl.
  unfold Fs.st_size, Fs.read, mbind, M_bind. simpl. rewrite lookup_insert_eq. simpl.
  destruct (raw r) as [|r0 rs] eqn:Hrw; [discriminate|]. simpl.
  eexists. split; [reflexivity|]. simpl. rewrite insert_insert_eq.
  repeat split; [apply lookup_insert_eq|].
  simpl. intros q Hq. by rewrite lookup_insert_ne.
Qed.

(** Against answers that all fail, the loop uses up its iterations and
    raises. *)
Lemma download_mp3_loop_exhausted (left : nat) (u dest : string) (max_retries attempt : Z)
    (w : World) :
  dest ∉ dirs w ->
  (forall k, (k < left)%nat ->
     attempt_fails (http_get (clock w + k) u mp3_headers) = true) ->
  exists w', download_mp3_loop left (Some u) dest max_retries attempt w
             = (inl (ValueError "Max retries exceeded"), w')
    /\ clock w' = (clock w + left)%nat /\ only_wrote dest w w'.
Proof.
  revert attempt w. induction left as [|left IH]; intros attempt w Hdir Hfail.
  - simpl. unfold mbind, M_bind, logging, raise. simpl.
    eexists. split; [reflexivity|]. simpl. split; [lia|repeat split].
  - cbn [download_mp3_loop].
    destruct (attempt_mp3_fails u dest attempt w Hdir) as (e & w1 & He & Hsel & Hc & Hw).
    { rewrite <- (Nat.add_0_r (clock w)). apply Hfail. lia. }
    erewrite try_except_caught by eassumption.
    unfold mbind, M_bind, logging at 1. simpl.
    match goal with |- context [download_mp3_loop left _ _ _ _ ?w0] =>
      destruct (IH (attempt + 1) w0) as (w' & Hl & Hc' & Hw') end.
    + simpl. destruct Hw as (-> & _). exact Hdir.
    + simpl. intros k Hk. rewrite Hc.
      replace (S (clock w) + k)%nat with (clock w + S k)%nat by lia. apply Hfail. lia.
    + exists w'. split; [exact Hl|]. simpl in Hc'. split; [lia|].
      eapply only_wrote_trans; [exact Hw|]. exact Hw'.
Qed.

(** When the first [n] answers fail and the next one does not, the loop
    returns at that attempt if it has an iteration left for it. *)
Lemma download_mp3_loop_returns (left n : nat) (u dest : string) (max_retries attempt : Z)
    (w : World) (r : Response) :
  dest ∉ dirs w -> (n < left)%nat ->
  (forall k, (k < n)%nat ->
     attempt_fails (http_get (clock w + k) u mp3_headers) = true) ->
  http_get (clock w + n) u mp3_headers = Answer r ->
  attempt_fails (Answer r) = false ->
  exists w', download_mp3_loop left (Some u) dest max_retries attempt w = (inr tt, w')
    /\ files w' !! dest = Some (raw r)
    /\ clock w' = (clock w + n + 1)%nat /\ only_wrote dest w w'.
Proof.
  revert n attempt w. induction left as [|left IH]; intros n attempt w Hdir Hn Hfail Hr Hok.
  - lia.
  - cbn [download_mp3_loop]. destruct n as [|n].
    + rewrite Nat.add_0_r in Hr.
      destruct (attempt_mp3_succeeds u dest attempt w r Hdir Hr Hok)
        as (w' & Ha & Hf & Hc & Hw).
      exists w'. erewrite try_except_returns by eassumption.
      split; [reflexivity|]. split; [exact Hf|]. split; [lia|exact Hw].
    + destruct (attempt_mp3_fails u dest attempt w Hdir) as (e & w1 & He & Hsel & Hc & Hw).
      { rewrite <- (Nat.add_0_r (clock w)). apply Hfail. lia. }
      erewrite try_except_caught by eassumption.
      unfold mbind, M_bind, logging at 1. simpl.
      match goal with |- context [download_mp3_loop left _ _ _ _ ?w0] =>
        destruct (IH n (attempt + 1) w0) as (w' & Hl & Hf' & Hc' & Hw') end.
      * simpl. destruct Hw as (-> & _). exact Hdir.
      * lia.
      * simpl. intros k Hk. rewrite Hc.
        replace (S (clock w) + k)%nat with (clock w + S k)%nat by lia. apply Hfail. lia.
      * simpl. rewrite Hc.
        replace (S (clock w) + n)%nat with (clock w + S n)%nat by lia. exact Hr.
      * exact Hok.
      * exists w'. split; [exact Hl|]. split; [exact Hf'|]. simpl in Hc'. split; [lia|].
        eapply only_wrote_trans; [exact Hw|]. exact Hw'.
Qed.

(** C2. With [max_retries=3] and a destination that is no directory:
    when the answers to the next three requests all fail, [download_mp3]
    sends exactly these three requests and raises
    [ValueError("Max retries exceeded")]; when the first two fail and the
    third does not, it returns after exactly three requests and the
    destination holds the body, which is not empty. *)
Theorem download_mp3_three_attempts (u dest : string) (w : World) :
  dest ∉ dirs w ->
  ((forall k, (k < 3)%nat ->
      attempt_fails (http_get (clock w + k) u mp3_headers) = true) ->
   result (download_mp3 (Some u) dest 3) w = inl (ValueError "Max retries exceeded") /\
   clock (after (download_mp3 (Some u) dest 3) w) = (clock w + 3)%nat) /\
  (forall r,
     attempt_fails (http_get (clock w) u mp3_headers) = true ->
     attempt_fails (http_get (clock w + 1) u mp3_headers) = true ->
     http_get (clock w + 2) u mp3_headers = Answer r ->
     attempt_fails (Answer r) = false ->
     result (download_mp3 (Some u) dest 3) w = inr tt /\
     clock (after (download_mp3 (Some u) dest 3) w) = (clock w + 3)%nat /\
     files (after (download_mp3 (Some u) dest 3) w) !! dest = Some (raw r) /\
     raw r <> []).
Proof.
  intros Hdir. unfold result, after, download_mp3. split.
  - intros Hfail.
    destruct (download_mp3_loop_exhausted (Z.to_nat 3) u dest 3 0 w Hdir Hfail)
      as (w' & -> & Hc & _).
    split; [reflexivity|exact Hc].
  - intros r H0 H1 Hr Hok.
    destruct (download_mp3_loop_returns (Z.to_nat 3) 2 u dest 3 0 w r Hdir) as
      (w' & -> & Hf & Hc & _); try done.
    + simpl. lia.
    + intros k Hk. destruct k as [|[|k]]; [by rewrite Nat.add_0_r|done|lia].
    + simpl. repeat split; try done; [lia|].
      intros Hraw. simpl in Hok. rewrite Hraw in Hok.
      by rewrite orb_true_r in Hok.
Qed.

End DownloadMp3.

(** Three failing answers, and two failing answers before a good one. *)
Lemma download_mp3_three_attempts_witness :
  (result (FileManager.download_mp3 (H := Fixtures.failing) (Some "http://x/a.mp3")
             "/dst/a.mp3" 3) Fixtures.empty_world
   = inl (ValueError "Max retries exceeded") /\
   clock (after (FileManager.download_mp3 (H := Fixtures.failing) (Some "http://x/a.mp3")
                   "/dst/a.mp3" 3) Fixtures.empty_world) = 3%nat) /\
  (result (FileManager.download_mp3 (H := Fixtures.flaky) (Some "http://x/a.mp3")
             "/dst/a.mp3" 3) Fixtures.empty_world = inr tt /\
   clock (after (FileManager.download_mp3 (H := Fixtures.flaky) (Some "http://x/a.mp3")
                   "/dst/a.mp3" 3) Fixtures.empty_world) = 3%nat /\
   files (after (FileManager.download_mp3 (H := Fixtures.flaky) (Some "http://x/a.mp3")
                   "/dst/a.mp3" 3) Fixtures.empty_world) !! "/dst/a.mp3"
   = Some [x4d; x50; x33] /\
   [x4d; x50; x33] <> []).
Proof.
  split.
  - apply (download_mp3_three_attempts (H := Fixtures.failing) "http://x/a.mp3"
             "/dst/a.mp3" Fixtures.empty_world).
    + apply not_elem_of_empty.
    + intros [|[|[|k]]] Hk; [reflexivity|reflexivity|reflexivity|lia].
  - apply (proj2 (download_mp3_three_attempts (H := Fixtures.flaky) "http://x/a.mp3"
                    "/dst/a.mp3" Fixtures.empty_world (not_elem_of_empty _))
             (mkResponse 200 [x4d; x50; x33] [x4d; x50; x33]));
      reflexivity.
Defined.

(** ** Paths of an item *)

Lemma cover_ne_mp3_name (name : string) : "cover.jpg" <> name +:+ ".mp3".
Proof.
  do 9 (destruct name as [|? name]; [discriminate|];
        rewrite append_cons; intros [= _ Heq]; revert Heq).
  destruct name; discriminate.
Qed.
Lemma cover_ne_folder d n : AudiobookProcessor.cover_of d n <> AudiobookProcessor.folder_of d n.
Proof. apply append_ne_self. discriminate. Qed.
Lemma mp3_ne_folder d n : AudiobookProcessor.mp3_of d n <> AudiobookProcessor.folder_of d n.
Proof. apply append_ne_self. discriminate. Qed.
Lemma cover_ne_mp3 d n : AudiobookProcessor.cover_of d n <> AudiobookProcessor.mp3_of d n.
Proof.
  unfold AudiobookProcessor.cover_of, AudiobookProcessor.mp3_of, Fs.path_join. intros Heq.
  apply (inj (String.app _)) in Heq. injection Heq as Heq.
  by apply cover_ne_mp3_name in Heq.
Qed.

(** ** Inverting a bind, and the tags of a second run *)

Lemma bind_inv {A B : Type} (m : M A) (f : A -> M B) (w w' : World) (y : B) :
  (m ≫= f) w = (inr y, w') -> exists x w0, m w = (inr x, w0) /\ f x w0 = (inr y, w').
Proof.
  unfold mbind, M_bind. destruct (m w) as [[e|x] w0]; [discriminate|]. eauto.
Qed.

Lemma tags_for_again (n a : string) (d : bytes) (t : ID3) :
  tags_for n a d (tags_for n a d t) = tags_for n a d t.
Proof.
  unfold tags_for at 1. unfold add at 3. rewrite insert_id.
  - unfold add at 2. rewrite insert_id.
    + unfold add at 1. apply insert_id. apply lookup_insert_eq.
    + unfold tags_for, add. simpl.
      rewrite lookup_insert_ne by discriminate. apply lookup_insert_eq.
  - unfold tags_for, add. simpl.
    rewrite !lookup_insert_ne by discriminate. apply lookup_insert_eq.
Qed.

(** ** The item processor *)
Section Process.
Context `{Collaborators}.
Import FileManager AudiobookProcessor.

Lemma only_wrote_log (p : string) (w : World) (l : list (level * string)) :
  only_wrote p w (with_log l w).
Proof. repeat split. Qed.

Lemma download_file_frame (url : option string) (p : string) (n : Z) (w : World) :
  only_wrote p w (after (download_file url p n) w).
Proof.
  unfold after, download_file, try_except, mbind, M_bind, logging, Requests.get. simpl.
  destruct url as [u|]; simpl; [|repeat split].
  destruct (http_get (clock w) u ∅) as [msg|r]; simpl; [repeat split|].
  unfold Requests.raise_for_status. destruct (Requests.is_error r); simpl; [repeat split|].
  unfold Fs.open_wb. simpl. destruct (bool_decide (p ∈ dirs w)); simpl; [repeat split|].
  match goal with |- context [Fs.write_all ?p ?c ?w0] =>
    rewrite (write_all_spec p c w0 []) by (simpl; apply lookup_insert_eq) end.
  simpl. repeat split. simpl. intros q Hq. by rewrite !lookup_insert_ne.
Qed.

Lemma attempt_mp3_frame (url : option string) (p : string) (a : Z) (w : World) :
  only_wrote p w (after (attempt_mp3 url p a) w).
Proof.
  unfold after, attempt_mp3, mbind, M_bind, logging, Requests.get. simpl.
  destruct url as [u|]; simpl; [|repeat split].
  destruct (http_get (clock w) u mp3_headers) as [msg|r]; simpl; [repeat split|].
  unfold Requests.raise_for_status. destruct (Requests.is_error r); simpl; [repeat split|].
  destruct (content r) as [|c0 cs]; simpl; [repeat split|].
  unfold Fs.open_wb. simpl. destruct (bool_decide (p ∈ dirs w)); simpl; [repeat split|].
  match goal with |- context [Fs.write_all ?p ?c ?w0] =>
    rewrite (write_all_spec p c w0 []) by (simpl; apply lookup_insert_eq) end.
  unfold Fs.st_size, Fs.read, mbind, M_bind. simpl. rewrite lookup_insert_eq. simpl.
  destruct (_ =? 0); simpl; repeat split; simpl; intros q Hq; by rewrite !lookup_insert_ne.
Qed.

Lemma download_mp3_loop_frame (left : nat) (url : option string) (p : string) (m a : Z)
    (w : World) :
  only_wrote p w (after (download_mp3_loop left url p m a) w).
Proof.
  revert a w. induction left as [|left IH]; intros a w; [repeat split|].
  unfold after. cbn [download_mp3_loop]. unfold try_except.
  pose proof (attempt_mp3_frame url p a w) as Ha. unfold after in Ha.
  destruct (attempt_mp3 url p a w) as [[e|[]] w1]; simpl in *; [|exact Ha].
  destruct (is_RequestException_or_ValueError e); [|exact Ha].
  eapply only_wrote_trans; [exact Ha|].
  unfold mbind, M_bind, logging at 1. simpl.
  eapply only_wrote_trans; [|apply IH]. repeat split.
Qed.

Lemma set_mp3_metadata_ok (mp3 name album cover : string) (w : World) (b d : bytes)
    (t0 : ID3) :
  files w !! mp3 = Some b -> files w !! cover = Some d ->
  ID3_load b = Header t0 \/ ID3_load b = NoHeader /\ t0 = ∅ ->
  set_mp3_metadata mp3 name album cover w
  = (inr tt, mkWorld (<[mp3 := ID3_save (tags_for name album d t0) b]> (files w)) (dirs w)
               (log w ++ [(INFO, "Metadata set for MP3 file: " +:+ mp3)]) (clock w)
               (S (tagged w)) (peak w)).
Proof.
  intros Hb Hd Hl. unfold set_mp3_metadata, called, load_tags, save_tags, Fs.read, Fs.put,
    logging, mbind, M_bind. simpl. rewrite Hb.
  destruct Hl as [Hl|[Hl ->]]; rewrite Hl; simpl; rewrite Hd; simpl;
    try rewrite Hb; reflexivity.
Qed.

Lemma set_mp3_metadata_inv (mp3 name album cover : string) (w w' : World) :
  set_mp3_metadata mp3 name album cover w = (inr tt, w') ->
  exists b d t0, files w !! mp3 = Some b /\ files w !! cover = Some d /\
    (ID3_load b = Header t0 \/ ID3_load b = NoHeader /\ t0 = ∅).
Proof.
  unfold set_mp3_metadata, called, load_tags, save_tags, Fs.read, Fs.put,
    logging, mbind, M_bind. simpl.
  destruct (files w !! mp3) as [b|]; [|discriminate].
  destruct (ID3_load b) as [t0| |msg] eqn:Hl; simpl; [| |discriminate];
    (destruct (files w !! cover) as [d|]; [|discriminate]); intros _; eauto 10.
Qed.

Lemma mkdir_ok (p : string) (w : World) :
  files w !! p = None -> Fs.mkdir p w = (inr tt, with_dirs ({[p]} ∪ dirs w) w).
Proof. intros Hp. unfold Fs.mkdir. rewrite Hp. reflexivity. Qed.

Lemma present_file (p : string) (w : World) (b : bytes) :
  files w !! p = Some b -> Fs.present p w = true.
Proof. intros Hp. unfold Fs.present. rewrite Hp. rewrite bool_decide_eq_true_2 by eauto. done. Qed.

(** A second run on a folder that the first one filled. *)
Lemma process_again (name album dest : string) (cl al : option string) (w : World)
    (b d : bytes) (t : ID3) :
  let self := make name cl al album dest in
  files w !! folder_path self = None ->
  folder_path self ∈ dirs w ->
  files w !! cover_path self = Some d ->
  files w !! mp3_path self = Some b ->
  ID3_load b = Header t ->
  tags_for name album d t = t ->
  ID3_save t b = b ->
  process self w
  = (inr tt, mkWorld (files w) (dirs w)
       (log w ++ [(INFO, "Setting metadata for " +:+ mp3_path self +:+ "...");
                  (INFO, "Metadata set for MP3 file: " +:+ mp3_path self);
                  (INFO, "Process completed for '" +:+ name +:+ "'.")])
       (clock w) (S (tagged w)) (peak w)).
Proof.
  intros self Hf Hdir Hc Hm Hl Ht Hs.
  assert (Hd : {[folder_path self]} ∪ dirs w = dirs w)
    by (apply subseteq_union_1_L, singleton_subseteq_l; exact Hdir).
  unfold process, mbind, M_bind. rewrite (mkdir_ok _ _ Hf), Hd.
  unfold Fs.exists_. rewrite (present_file _ _ d) by exact Hc. simpl.
  rewrite (present_file _ _ b) by exact Hm. simpl.
  rewrite (set_mp3_metadata_ok _ _ _ _ _ b d t) by (simpl; auto).
  simpl. rewrite Ht, Hs, insert_id by exact Hm.
  unfold logging. simpl. rewrite <- !app_assoc. reflexivity.
Qed.

Lemma after_eq {A : Type} (m : M A) (w w' : World) (r : exn + A) :
  m w = (r, w') -> w' = after m w.
Proof. intros Hm. unfold after. rewrite Hm. reflexivity. Qed.

(** What a run of [process] that returns leaves behind: [wc] is the world
    just before the tags are set. *)
Lemma process_returns_inv (name album dest : string) (cl al : option string)
    (w w1 : World) :
  let self := make name cl al album dest in
  process self w = (inr tt, w1) ->
  files w !! folder_path self = None /\
  exists wc b d t0,
    dirs wc = {[folder_path self]} ∪ dirs w /\
    (forall q, q <> cover_path self -> q <> mp3_path self ->
       files wc !! q = files w !! q) /\
    files wc !! mp3_path self = Some b /\
    files wc !! cover_path self = Some d /\
    (ID3_load b = Header t0 \/ ID3_load b = NoHeader /\ t0 = ∅) /\
    files w1 = <[mp3_path self := ID3_save (tags_for name album d t0) b]> (files wc) /\
    dirs w1 = dirs wc /\ clock w1 = clock wc /\ tagged w1 = S (tagged wc).
Proof.
  intros self Hp. unfold process in Hp.
  apply bind_inv in Hp as ([] & wa & Hmk & Hp).
  unfold Fs.mkdir in Hmk. destruct (files w !! folder_path self) eqn:Hf; [discriminate|].
  injection Hmk as <-. split; [reflexivity|].
  apply bind_inv in Hp as (c & wa' & Hex & Hp). injection Hex as <- <-.
  apply bind_inv in Hp as ([] & wb & Hcov & Hp).
  assert (Hwb : only_wrote (cover_path self) (with_dirs ({[folder_path self]} ∪ dirs w) w) wb).
  { destruct (negb _) in Hcov.
    - apply bind_inv in Hcov as ([] & w0 & Hlog & Hdl). injection Hlog as <-.
      apply after_eq in Hdl as ->.
      eapply only_wrote_trans; [|apply download_file_frame]. repeat split.
    - injection Hcov as <-. apply only_wrote_refl. }
  apply bind_inv in Hp as (c' & wb' & Hex & Hp). injection Hex as <- <-.
  apply bind_inv in Hp as ([] & wc & Hmp & Hp).
  assert (Hwc : only_wrote (mp3_path self) wb wc).
  { destruct (negb _) in Hmp.
    - apply bind_inv in Hmp as ([] & w0 & Hlog & Hdl). injection Hlog as <-.
      apply after_eq in Hdl as ->.
      eapply only_wrote_trans; [|apply download_mp3_loop_frame]. repeat split.
    - injection Hmp as <-. apply only_wrote_refl. }
  apply bind_inv in Hp as ([] & wc' & Hlog & Hp). injection Hlog as <-.
  apply bind_inv in Hp as ([] & wd & Hset & Hp). injection Hp as <-.
  destruct (set_mp3_metadata_inv _ _ _ _ _ _ Hset) as (b & d & t0 & Hb & Hd & Hl).
  rewrite (set_mp3_metadata_ok _ _ _ _ _ b d t0 Hb Hd Hl) in Hset. injection Hset as <-.
  destruct Hwb as (Hd1 & Ht1 & Hf1). destruct Hwc as (Hd2 & Ht2 & Hf2).
  exists wc, b, d, t0. simpl in *. repeat split; try done.
  - congruence.
  - intros q Hq1 Hq2. rewrite Hf2, Hf1 by done. reflexivity.
Qed.

End Process.

(** ** Running the processor twice *)

Lemma read_pos_bytes (p : positive) (rest : bytes) :
  Fixtures.read_pos (Fixtures.pos_bytes p ++ rest) = Some (p, rest).
Proof. induction p as [q IH|q IH|]; simpl; [rewrite IH|rewrite IH|]; reflexivity. Qed.

Lemma tag_load_save (audio : ID3) (b : bytes) :
  Fixtures.tag_load (Fixtures.tag_save audio b) = Header audio.
Proof.
  unfold Fixtures.tag_load, Fixtures.tag_save.
  rewrite read_pos_bytes, decode_encode. reflexivity.
Qed.

Lemma tag_body_save (audio : ID3) (b : bytes) :
  Fixtures.tag_body (Fixtures.tag_save audio b) = Fixtures.tag_body b.
Proof.
  unfold Fixtures.tag_body at 1, Fixtures.tag_save. rewrite read_pos_bytes. reflexivity.
Qed.

Lemma tag_save_save (audio : ID3) (b : bytes) :
  Fixtures.tag_save audio (Fixtures.tag_save audio b) = Fixtures.tag_save audio b.
Proof. unfold Fixtures.tag_save at 1. rewrite tag_body_save. reflexivity. Qed.

Section Idempotence.
Context `{Collaborators}.
Import FileManager AudiobookProcessor.

(** The tag library reads back the tag it saved, and saving the same tag
    again leaves the file as it is. *)
Hypothesis load_save : forall (audio : ID3) (b : bytes),
  ID3_load (ID3_save audio b) = Header audio.
Hypothesis save_save : forall (audio : ID3) (b : bytes),
  ID3_save audio (ID3_save audio b) = ID3_save audio b.

(** C3. After a run of [process] that returned, a second run on the same
    item returns as well; it sends no request and logs no download, calls
    [set_mp3_metadata] once, and leaves the files and directories as the
    first run left them. *)
Theorem process_twice (name album dest : string) (cl al : option string) (w w1 : World) :
  let self := make name cl al album dest in
  process self w = (inr tt, w1) ->
  process self w1
  = (inr tt, mkWorld (files w1) (dirs w1)
       (log w1 ++ [(INFO, "Setting metadata for " +:+ mp3_path self +:+ "...");
                   (INFO, "Metadata set for MP3 file: " +:+ mp3_path self);
                   (INFO, "Process completed for '" +:+ name +:+ "'.")])
       (clock w1) (S (tagged w1)) (peak w1)).
Proof.
  intros self Hrun.
  destruct (process_returns_inv name album dest cl al w w1 Hrun)
    as (Hfolder & wc & b & d & t0 & Hdirs & Hframe & Hb & Hd & _ & Hfiles & Hdirs1 & _ & _).
  fold self in Hfolder, Hdirs, Hframe, Hb, Hd, Hfiles.
  apply (process_again name album dest cl al w1 (ID3_save (tags_for name album d t0) b) d
           (tags_for name album d t0)).
  - rewrite Hfiles, lookup_insert_ne by apply mp3_ne_folder.
    rewrite Hframe; [exact Hfolder|apply not_eq_sym, cover_ne_folder
                    |apply not_eq_sym, mp3_ne_folder].
  - rewrite Hdirs1, Hdirs. apply elem_of_union_l, elem_of_singleton. reflexivity.
  - rewrite Hfiles, lookup_insert_ne by apply not_eq_sym, cover_ne_mp3. exact Hd.
  - rewrite Hfiles. apply lookup_insert_eq.
  - apply load_save.
  - apply tags_for_again.
  - apply save_save.
Qed.

End Idempotence.

(** Two runs on an item of the fixture site. *)
Lemma process_twice_witness :
  let w1 := after (AudiobookProcessor.process (H := Fixtures.site) Fixtures.story)
              Fixtures.empty_world in
  AudiobookProcessor.process (H := Fixtures.site) Fixtures.story w1
  = (inr tt, mkWorld (files w1) (dirs w1)
       (log w1 ++ [(INFO, "Setting metadata for /dst/Story/Story.mp3...");
                   (INFO, "Metadata set for MP3 file: /dst/Story/Story.mp3");
                   (INFO, "Process completed for 'Story'.")])
       (clock w1) (S (tagged w1)) (peak w1)).
Proof.
  intros w1.
  apply (process_twice (H := Fixtures.site) tag_load_save tag_save_save
           "Story" "Kubus Storytel" "/dst" (Some "http://x/c.jpg") (Some "http://x/a.mp3")
           Fixtures.empty_world w1).
  vm_compute. reflexivity.
Defined.

(** ** Records without a URL *)
Section AbsentUrl.
Context `{Collaborators}.
Import FileManager AudiobookProcessor.

Lemma present_after_mkdir (p f : string) (w : World) (l : list (level * string)) :
  p <> f ->
  Fs.present p (with_dirs ({[f]} ∪ dirs (with_log l w)) (with_log l w)) = Fs.present p w.
Proof.
  intros Hne. unfold Fs.present. simpl. f_equal.
  apply bool_decide_ext. rewrite elem_of_union, elem_of_singleton. tauto.
Qed.

Lemma present_only_wrote (p q : string) (w w' : World) :
  only_wrote q w w' -> p <> q -> Fs.present p w' = Fs.present p w.
Proof.
  intros (Hd & _ & Hf) Hne. unfold Fs.present. rewrite Hd, Hf by exact Hne. reflexivity.
Qed.

Lemma download_mp3_none (p : string) (w : World) :
  result (download_mp3 None p 3) w = inl (ValueError "Max retries exceeded").
Proof. reflexivity. Qed.

Lemma download_file_none (p : string) (n : Z) (w : World) :
  result (download_file None p n) w
  = inl (RequestException "Invalid URL 'None': No scheme supplied.").
Proof. reflexivity. Qed.

Lemma process_cover_none (name album dest : string) (al : option string) (w : World) :
  let self := make name None al album dest in
  files w !! folder_path self = None ->
  Fs.present (cover_path self) w = false ->
  result (process self) w = inl (RequestException "Invalid URL 'None': No scheme supplied.").
Proof.
  intros self Hf Hc. unfold result, process, mbind, M_bind.
  rewrite (mkdir_ok _ _ Hf). unfold Fs.exists_.
  change (with_dirs ({[folder_path self]} ∪ dirs w) w)
    with (with_dirs ({[folder_path self]} ∪ dirs (with_log (log w) w)) (with_log (log w) w)).
  rewrite present_after_mkdir by apply cover_ne_folder. rewrite Hc. reflexivity.
Qed.

Lemma process_audio_none (name album dest : string) (cl : option string) (w : World) :
  let self := make name cl None album dest in
  files w !! folder_path self = None ->
  Fs.present (mp3_path self) w = false ->
  (exists e, result (process self) w = inl e) /\
  (forall d, files w !! cover_path self = Some d ->
     result (process self) w = inl (ValueError "Max retries exceeded")).
Proof.
  intros self Hf Hm. 
  assert (Hmk : Fs.present (mp3_path self) (with_dirs ({[folder_path self]} ∪ dirs w) w) = false).
  { change (with_dirs ({[folder_path self]} ∪ dirs w) w)
      with (with_dirs ({[folder_path self]} ∪ dirs (with_log (log w) w)) (with_log (log w) w)).
    rewrite present_after_mkdir by apply mp3_ne_folder. exact Hm. }
  split.
  - unfold result, process, mbind, M_bind. rewrite (mkdir_ok _ _ Hf). unfold Fs.exists_.
    match goal with |- context [(if negb ?c then ?m else ?m') ?w0] =>
      pose proof (run_pair (if negb c then m else m') w0) as Hrun;
      assert (Hw : only_wrote (cover_path self) w0 (after (if negb c then m else m') w0)) end.
    { destruct (negb _).
      - unfold after, mbind, M_bind, logging at 1.
        eapply only_wrote_trans; [|apply download_file_frame]. repeat split.
      - apply only_wrote_refl. }
    rewrite Hrun. destruct (result _ _) as [e|[]]; [eauto|].
    rewrite (present_only_wrote _ _ _ _ Hw) by apply not_eq_sym, cover_ne_mp3.
    match goal with |- context [Fs.present ?p ?w0] =>
      replace (Fs.present p w0) with false by (symmetry; exact Hmk) end.
    simpl. eauto.
  - intros d Hd. unfold result, process, mbind, M_bind. rewrite (mkdir_ok _ _ Hf).
    unfold Fs.exists_. rewrite (present_file _ _ d) by exact Hd. simpl.
    match goal with |- context [Fs.present ?p ?w0] =>
      replace (Fs.present p w0) with false by (symmetry; exact Hmk) end.
    reflexivity.
Qed.

Lemma process_item_eq (album dest : string) (a : AudiobookScraper.Audiobook) (w : World) :
  process_item album dest a w
  = process (make (AudiobookScraper.title a) (AudiobookScraper.cover_link a)
               (AudiobookScraper.audio_link a) album dest)
      (with_log (log w ++ [(INFO, "AudiobookProcessor initialized for: "
                                    +:+ AudiobookScraper.title a)]) w).
Proof. reflexivity. Qed.

End AbsentUrl.

(** C5. The extractor emits records without a cover URL and records
    without an audio URL, and the processor is started on them as on any
    other: when the cover file is not there, the download of the cover
    from [None] raises out of [process]; when the audio file is not
    there, [process] raises as well, with the error of the exhausted
    retries when the cover is in place. *)
Theorem absent_url_raises :
  result (AudiobookScraper.run (H := Fixtures.site) Fixtures.kubus) Fixtures.empty_world
  = inr [AudiobookScraper.mkAudiobook "Story A" None (Some "http://x/a.mp3");
         AudiobookScraper.mkAudiobook "Story B" (Some "http://x/c.jpg") (Some "http://x/a.mp3");
         AudiobookScraper.mkAudiobook "Story C" (Some "http://x/c.jpg") None] /\
  forall (H : Collaborators) (album dest : string) (a : AudiobookScraper.Audiobook)
         (w : World),
    let self := AudiobookProcessor.make (AudiobookScraper.title a)
                  (AudiobookScraper.cover_link a) (AudiobookScraper.audio_link a)
                  album dest in
    files w !! AudiobookProcessor.folder_path self = None ->
    (AudiobookScraper.cover_link a = None ->
     Fs.present (AudiobookProcessor.cover_path self) w = false ->
     result (process_item album dest a) w
     = inl (RequestException "Invalid URL 'None': No scheme supplied.")) /\
    (AudiobookScraper.audio_link a = None ->
     Fs.present (AudiobookProcessor.mp3_path self) w = false ->
     (exists e, result (process_item album dest a) w = inl e) /\
     (forall d, files w !! AudiobookProcessor.cover_path self = Some d ->
        result (process_item album dest a) w = inl (ValueError "Max retries exceeded"))).
Proof.
  split; [vm_compute; reflexivity|].
  intros H album dest [name cl al] w self Hf. simpl in *. split.
  - intros -> Hc. unfold result. rewrite process_item_eq.
    apply (process_cover_none name album dest al (with_log _ w)); assumption.
  - intros -> Hm. unfold result. rewrite process_item_eq.
    apply (process_audio_none name album dest cl (with_log _ w)); assumption.
Qed.

(** [Story A] of the fixture catalog, on an empty disk. *)
Lemma absent_url_raises_witness :
  result (process_item (H := Fixtures.site) "Kubus Storytel" "/dst"
            (AudiobookScraper.mkAudiobook "Story A" None (Some "http://x/a.mp3")))
    Fixtures.empty_world
  = inl (RequestException "Invalid URL 'None': No scheme supplied.").
Proof.
  apply (proj1 (proj2 absent_url_raises Fixtures.site "Kubus Storytel" "/dst"
                  (AudiobookScraper.mkAudiobook "Story A" None (Some "http://x/a.mp3"))
                  Fixtures.empty_world eq_refl));
    reflexivity.
Defined.

(** ** The driver *)
Section DriverLoop.
Context `{Collaborators}.

Lemma main_eq (destination : string) (w : World) :
  main destination w = (scrape ≫= process_all "Kubus Storytel" destination) w.
Proof.
  unfold main, scrape, mbind, M_bind.
  destruct (AudiobookScraper.__init__ _ _ _ w) as [[e|scraper] w1]; reflexivity.
Qed.

Lemma process_all_app (album dest : string) (done rest : list AudiobookScraper.Audiobook)
    (w : World) :
  result (process_all album dest done) w = inr tt ->
  process_all album dest (done ++ rest) w
  = process_all album dest rest (after (process_all album dest done) w).
Proof.
  revert w. induction done as [|a done IH]; intros w Hdone; [reflexivity|].
  unfold result, after in *. cbn [process_all app] in *. unfold mbind, M_bind in *.
  destruct (process_item album dest a w) as [[e|[]] w1]; [discriminate|].
  apply IH. exact Hdone.
Qed.

(** C1, as the code has it. [main] runs the processor on the records in
    their order for as long as it returns. The first error that a
    processor raises is raised by [main], in the world that processor left:
    the records after it are not processed. When no processor raises,
    [main] returns after the last one. *)
Theorem main_stops_at_first_failure (destination : string) (w w0 : World)
    (audiobooks : list AudiobookScraper.Audiobook) :
  scrape w = (inr audiobooks, w0) ->
  (forall done rest, audiobooks = (done ++ rest)%list ->
     result (process_all "Kubus Storytel" destination done) w0 = inr tt ->
     main destination w
     = process_all "Kubus Storytel" destination rest
         (after (process_all "Kubus Storytel" destination done) w0)) /\
  (forall done a rest e, audiobooks = (done ++ a :: rest)%list ->
     result (process_all "Kubus Storytel" destination done) w0 = inr tt ->
     result (process_item "Kubus Storytel" destination a)
       (after (process_all "Kubus Storytel" destination done) w0) = inl e ->
     main destination w
     = (inl e, after (process_item "Kubus Storytel" destination a)
                 (after (process_all "Kubus Storytel" destination done) w0))) /\
  (result (process_all "Kubus Storytel" destination audiobooks) w0 = inr tt ->
   main destination w
   = (inr tt, after (process_all "Kubus Storytel" destination audiobooks) w0)).
Proof.
  intros Hs.
  assert (Hmain : main destination w = process_all "Kubus Storytel" destination audiobooks w0).
  { rewrite main_eq. apply bind_returns. exact Hs. }
  split; [|split].
  - intros done rest -> Hdone. rewrite Hmain. apply process_all_app. exact Hdone.
  - intros done a rest e -> Hdone Ha. rewrite Hmain, process_all_app by exact Hdone.
    cbn [process_all]. apply bind_raises. rewrite (run_pair (process_item _ _ a)), Ha.
    reflexivity.
  - intros Hall. rewrite Hmain, (run_pair (process_all _ _ audiobooks)), Hall. reflexivity.
Qed.

End DriverLoop.

(** On the fixture catalog the first item fails: [main] raises its error,
    and [Story B], whose files the site serves, is not processed. This is
    against C1 as stated. *)
Lemma main_aborts_on_failure :
  result (scrape (H := Fixtures.site)) Fixtures.empty_world
  = inr [AudiobookScraper.mkAudiobook "Story A" None (Some "http://x/a.mp3");
         AudiobookScraper.mkAudiobook "Story B" (Some "http://x/c.jpg") (Some "http://x/a.mp3");
         AudiobookScraper.mkAudiobook "Story C" (Some "http://x/c.jpg") None] /\
  result (process_item (H := Fixtures.site) "Kubus Storytel" "/dst"
            (AudiobookScraper.mkAudiobook "Story B" (Some "http://x/c.jpg")
               (Some "http://x/a.mp3")))
    (after (scrape (H := Fixtures.site)) Fixtures.empty_world) = inr tt /\
  result (main (H := Fixtures.site) "/dst") Fixtures.empty_world
  = inl (RequestException "Invalid URL 'None': No scheme supplied.") /\
  files (after (main (H := Fixtures.site) "/dst") Fixtures.empty_world) = ∅ /\
  dirs (after (main (H := Fixtures.site) "/dst") Fixtures.empty_world) = {[ "/dst/Story A" ]} /\
  tagged (after (main (H := Fixtures.site) "/dst") Fixtures.empty_world) = 0%nat /\
  List.last (log (after (main (H := Fixtures.site) "/dst") Fixtures.empty_world)) (INFO, "")
  = (ERROR, "Failed to download file: Invalid URL 'None': No scheme supplied.").
Proof.
  repeat split; vm_compute; reflexivity.
Qed.

(** The driver on the fixture catalog, stopped by its first item. *)
Lemma main_stops_at_first_failure_witness :
  main (H := Fixtures.site) "/dst" Fixtures.empty_world
  = (inl (RequestException "Invalid URL 'None': No scheme supplied."),
     after (process_item (H := Fixtures.site) "Kubus Storytel" "/dst"
              (AudiobookScraper.mkAudiobook "Story A" None (Some "http://x/a.mp3")))
       (after (process_all (H := Fixtures.site) "Kubus Storytel" "/dst" [])
          (after (scrape (H := Fixtures.site)) Fixtures.empty_world))).
Proof.
  refine (proj1 (proj2 (main_stops_at_first_failure (H := Fixtures.site) "/dst"
            Fixtures.empty_world (after (scrape (H := Fixtures.site)) Fixtures.empty_world)
            _ _)) [] _ _ _ eq_refl _ _).
  - vm_compute. reflexivity.
  - reflexivity.
  - vm_compute. reflexivity.
Defined.

(** ** Bytes held at once *)

Lemma slices_max_len (fuel n : nat) (b : bytes) :
  (max_len (Requests.slices fuel n b) <= n)%nat.
Proof.
  revert b. induction fuel as [|k IH]; intros b; [simpl; lia|].
  destruct b as [|x b']; [simpl; lia|].
  cbn [Requests.slices max_len foldr]. fold (max_len (Requests.slices k n (drop n (x :: b')))).
  pose proof (IH (drop n (x :: b'))). rewrite length_take. lia.
Qed.

Lemma iter_content_max_len (n : Z) (r : Response) :
  0 < n -> (max_len (Requests.iter_content n r) <= Z.to_nat n)%nat.
Proof.
  intros Hn. unfold Requests.iter_content.
  destruct (n <=? 0) eqn:Hle; [apply Z.leb_le in Hle; lia|]. apply slices_max_len.
Qed.

Section Memory.
Context `{Collaborators}.
Import FileManager.

(** X22. [download_file] holds no more than one chunk of the body at a
    time: with a positive chunk size, the largest buffer after the call is
    the largest before it or at most of the chunk size, whatever the size
    of the body. *)
Theorem download_file_streams (url : option string) (p : string) (n : Z) (w : World) :
  0 < n ->
  (peak (after (download_file url p n) w) <= Nat.max (peak w) (Z.to_nat n))%nat.
Proof.
  intros Hn.
  unfold after, download_file, try_except, mbind, M_bind, logging, Requests.get. simpl.
  destruct url as [u|]; simpl; [|lia].
  destruct (http_get (clock w) u ∅) as [msg|r]; simpl; [lia|].
  unfold Requests.raise_for_status. destruct (Requests.is_error r); simpl; [lia|].
  unfold Fs.open_wb. simpl. destruct (bool_decide (p ∈ dirs w)); simpl; [lia|].
  match goal with |- context [Fs.write_all ?p ?c ?w0] =>
    rewrite (write_all_spec p c w0 []) by (simpl; apply lookup_insert_eq) end.
  simpl. pose proof (iter_content_max_len n r Hn). lia.
Qed.

Lemma attempt_mp3_peak (url : option string) (p : string) (a : Z) (w : World) :
  (peak w <= peak (after (attempt_mp3 url p a) w))%nat.
Proof.
  unfold after, attempt_mp3, mbind, M_bind, logging, Requests.get. simpl.
  destruct url as [u|]; simpl; [|lia].
  destruct (http_get (clock w) u mp3_headers) as [msg|r]; simpl; [lia|].
  unfold Requests.raise_for_status. destruct (Requests.is_error r); simpl; [lia|].
  destruct (content r) as [|c0 cs]; simpl; [lia|].
  unfold Fs.open_wb. simpl. destruct (bool_decide (p ∈ dirs w)); simpl; [lia|].
  match goal with |- context [Fs.write_all ?p ?c ?w0] =>
    rewrite (write_all_spec p c w0 []) by (simpl; apply lookup_insert_eq) end.
  unfold Fs.st_size, Fs.read, mbind, M_bind. simpl. rewrite lookup_insert_eq. simpl.
  destruct (_ =? 0); simpl; lia.
Qed.

(** An attempt that gets an answer without an error status holds the
    whole of [response.content]. *)
Lemma attempt_mp3_buffers (u p : string) (a : Z) (w : World) (r : Response) :
  http_get (clock w) u mp3_headers = Answer r ->
  Requests.is_error r = false ->
  (length (content r) <= peak (after (attempt_mp3 (Some u) p a) w))%nat.
Proof.
  intros Hr He.
  unfold after, attempt_mp3, mbind, M_bind, logging, Requests.get. simpl.
  rewrite Hr. simpl. unfold Requests.raise_for_status. rewrite He. simpl.
  destruct (content r) as [|c0 cs]; simpl; [lia|].
  unfold Fs.open_wb. simpl. destruct (bool_decide (p ∈ dirs w)); simpl; [lia|].
  match goal with |- context [Fs.write_all ?p ?c ?w0] =>
    rewrite (write_all_spec p c w0 []) by (simpl; apply lookup_insert_eq) end.
  unfold Fs.st_size, Fs.read, mbind, M_bind. simpl. rewrite lookup_insert_eq. simpl.
  destruct (_ =? 0); simpl; lia.
Qed.

Lemma download_mp3_loop_peak (left : nat) (url : option string) (p : string) (m a : Z)
    (w : World) :
  (peak w <= peak (after (download_mp3_loop left url p m a) w))%nat.
Proof.
  revert a w. induction left as [|left IH]; intros a w; [simpl; lia|].
  unfold after. cbn [download_mp3_loop]. unfold try_except.
  pose proof (attempt_mp3_peak url p a w) as Ha. unfold after in Ha.
  destruct (attempt_mp3 url p a w) as [[e|[]] w1]; simpl in *; [|exact Ha].
  destruct (is_RequestException_or_ValueError e); [|exact Ha].
  unfold mbind, M_bind, logging at 1. simpl.
  etransitivity; [exact Ha|]. etransitivity; [|apply IH]. simpl. lia.
Qed.

(** Whatever size the body has, [download_mp3] holds all of it at once. *)
Lemma download_mp3_buffers (u p : string) (max_retries : Z) (w : World) (r : Response) :
  0 < max_retries ->
  http_get (clock w) u mp3_headers = Answer r ->
  Requests.is_error r = false ->
  (length (content r) <= peak (after (download_mp3 (Some u) p max_retries) w))%nat.
Proof.
  intros Hm Hr He. unfold download_mp3.
  destruct (Z.to_nat max_retries) as [|left] eqn:Hl; [lia|].
  unfold after. cbn [download_mp3_loop]. unfold try_except.
  pose proof (attempt_mp3_buffers u p 0 w r Hr He) as Ha. unfold after in Ha.
  destruct (attempt_mp3 (Some u) p 0 w) as [[e|[]] w1]; simpl in *; [|exact Ha].
  destruct (is_RequestException_or_ValueError e); [|exact Ha].
  unfold mbind, M_bind, logging at 1. simpl.
  etransitivity; [exact Ha|]. etransitivity; [|apply download_mp3_loop_peak]. simpl. lia.
Qed.

End Memory.

(** C6 at a body of 8193 bytes. [download_mp3] writes it in pieces of at
    most 8192 bytes, but reads [response.content] first and so holds all
    8193 bytes in one buffer, more than a chunk; [download_file] on the
    same body holds 8192 bytes at most. *)
Theorem download_mp3_holds_whole_body :
  result (FileManager.download_mp3 (H := Fixtures.big_site) (Some "http://x/a.mp3")
            "/dst/a.mp3" 3) Fixtures.empty_world = inr tt /\
  max_len (Requests.iter_content 8192 (mkResponse 200 Fixtures.big Fixtures.big)) = Z.to_nat 8192 /\
  peak (after (FileManager.download_mp3 (H := Fixtures.big_site) (Some "http://x/a.mp3")
                 "/dst/a.mp3" 3) Fixtures.empty_world) = Z.to_nat 8193 /\
  peak (after (FileManager.download_file (H := Fixtures.big_site) (Some "http://x/a.mp3")
                 "/dst/a.mp3" 8192) Fixtures.empty_world) = Z.to_nat 8192.
Proof.
  repeat split; vm_compute; reflexivity.
Qed.

(** ** The catalog extractor *)

Lemma skipped_snoc (l : list (level * string)) (e : level * string) :
  skipped (l ++ [e]) = (skipped l + (if is_skip_warning e then 1 else 0))%nat.
Proof.
  unfold skipped. rewrite List.filter_app, length_app. simpl.
  destruct (is_skip_warning e); reflexivity.
Qed.

Lemma truthy_the (o : option string) : Py.truthy o = true -> AudiobookScraper.the o <> "".
Proof. destruct o as [[|c s]|]; simpl; intros; discriminate. Qed.

Lemma is_skip_warning_skipping (s : string) :
  is_skip_warning (WARNING, "Skipping audiobook with missing title or data-id: " +:+ s) = true.
Proof. unfold is_skip_warning. rewrite strip_prefix_app. reflexivity. Qed.

Section Extractor.
Context `{Collaborators}.
Import Py Bs4 AudiobookScraper.

Lemma extract_image_url_skipped (self : t) (c : option Node) (w : World) :
  exists w', extract_image_url self c w
             = (inr (div ← c; style ← get div "style"; Re.background_image_search style), w')
    /\ skipped (log w') = skipped (log w).
Proof.
  destruct c as [div|]; simpl.
  - destruct (get div "style") as [style|]; simpl.
    + eauto.
    + eexists. split; [reflexivity|]. simpl. rewrite skipped_snoc. simpl. lia.
  - eexists. split; [reflexivity|]. simpl. rewrite skipped_snoc. simpl. lia.
Qed.

Lemma get_audio_src_skipped (self : t) (d : string) (w : World) :
  skipped (log (after (get_audio_src self d) w)) = skipped (log w).
Proof.
  unfold after, get_audio_src, try_except. simpl.
  unfold mbind, M_bind, Requests.get, logging. simpl.
  destruct (http_get _ _ _) as [msg|r]; simpl.
  { rewrite !skipped_snoc. simpl. lia. }
  unfold Requests.raise_for_status. destruct (Requests.is_error r); simpl.
  { rewrite !skipped_snoc. simpl. lia. }
  unfold parse. destruct (html_parser (content r)) as [e|soup]; simpl.
  - destruct (is_RequestException e); simpl; rewrite !skipped_snoc; simpl; lia.
  - rewrite !skipped_snoc; simpl; lia.
Qed.


(** What one turn of the loop returns, when it returns: the list with the
    record of the candidate appended if the candidate is well formed, and
    the list as it was, with one warning logged, if it is not. *)
Lemma extract_one_inv (self : t) (div : Node) (acc rs : list Audiobook) (w w' : World) :
  extract_one self div acc w = (inr rs, w') ->
  (exists audio,
     rs = (acc ++ if well_formed div
                  then [mkAudiobook (the (title_of div)) (cover_url_of div) audio]
                  else [])%list) /\
  skipped (log w') = (skipped (log w) + if well_formed div then 0 else 1)%nat.
Proof.
  unfold extract_one. intros Hrun.
  destruct (extract_image_url_skipped self (cover_div_of div) w) as (w1 & Hcov & Hs1).
  rewrite (bind_returns _ _ _ _ _ Hcov) in Hrun.
  apply bind_inv in Hrun as (audio & w2 & Haud & Hrun).
  assert (Hs2 : skipped (log w2) = skipped (log w1)).
  { destruct (truthy (data_id_of div)).
    - apply after_eq in Haud as ->. apply get_audio_src_skipped.
    - injection Haud as _ <-. reflexivity. }
  unfold well_formed.
  destruct (truthy (title_of div)), (truthy (data_id_of div)); simpl in Hrun |- *.
  - injection Hrun as <- <-. split; [eauto|]. lia.
  - injection Hrun as <- <-. rewrite app_nil_r. split; [eauto|].
    simpl. rewrite skipped_snoc, is_skip_warning_skipping. lia.
  - injection Hrun as <- <-. rewrite app_nil_r. split; [eauto|].
    simpl. rewrite skipped_snoc, is_skip_warning_skipping. lia.
  - injection Hrun as <- <-. rewrite app_nil_r. split; [eauto|].
    simpl. rewrite skipped_snoc, is_skip_warning_skipping. lia.
Qed.

Lemma extract_loop_inv (self : t) (divs : list Node) (acc rs : list Audiobook)
    (w w' : World) :
  extract_loop self divs acc w = (inr rs, w') ->
  exists rs', rs = (acc ++ rs')%list /\
    map fixed_part rs' = map fixed_part_of (List.filter well_formed divs) /\
    skipped (log w')
    = (skipped (log w) + length (List.filter (fun d => negb (well_formed d)) divs))%nat.
Proof.
  revert acc w. induction divs as [|div divs IH]; intros acc w Hrun.
  - injection Hrun as <- <-. exists []. rewrite app_nil_r. simpl. auto with lia.
  - cbn [extract_loop] in Hrun. apply bind_inv in Hrun as (acc1 & w1 & Hone & Hrun).
    apply extract_one_inv in Hone as ((audio & ->) & Hs1).
    apply IH in Hrun as (rs' & -> & Hmap & Hs). rewrite <- app_assoc.
    eexists. split; [reflexivity|]. simpl. rewrite Hs, Hs1.
    destruct (well_formed div); simpl; rewrite ?Hmap; split; auto with lia.
Qed.

Lemma titles_not_empty (rs : list Audiobook) (divs : list Node) :
  map fixed_part rs = map fixed_part_of divs ->
  Forall (fun d => well_formed d = true) divs ->
  Forall (fun r => title r <> "") rs.
Proof.
  revert divs. induction rs as [|r rs IH]; intros [|d divs] Hmap Hwf;
    try discriminate; constructor.
  - injection Hmap as Ht _ _. rewrite Ht. apply truthy_the.
    apply Forall_inv in Hwf. unfold well_formed in Hwf.
    apply andb_true_iff in Hwf as [Hwf _]. exact Hwf.
  - apply (IH divs); [by injection Hmap|by apply Forall_inv_tail in Hwf].
Qed.

Lemma filter_all {A : Type} (f : A -> bool) (l : list A) :
  forallb f l = true -> List.filter f l = l.
Proof.
  induction l as [|x l IH]; [reflexivity|]. simpl.
  intros [Hx Hl]%andb_true_iff. rewrite Hx, IH by exact Hl. reflexivity.
Qed.

Lemma filter_well_formed : forall divs : list Node,
  Forall (fun d => well_formed d = true) (List.filter well_formed divs).
Proof.
  intros divs. apply List.Forall_forall. intros d [_ Hd]%filter_In. exact Hd.
Qed.

Section Total.

(** The parser accepts every page. *)
Hypothesis parser_total : forall b, exists soup, html_parser b = inr soup.

Lemma get_audio_src_returns (self : t) (d : string) (w : World) :
  exists o, result (get_audio_src self d) w = inr o.
Proof.
  unfold result, get_audio_src, try_except. simpl.
  unfold mbind, M_bind, Requests.get, logging. simpl.
  destruct (http_get _ _ _) as [msg|r]; simpl; [eauto|].
  unfold Requests.raise_for_status. destruct (Requests.is_error r); simpl; [eauto|].
  unfold parse. destruct (parser_total (content r)) as [soup ->]. simpl. eauto.
Qed.

Lemma extract_one_returns (self : t) (div : Node) (acc : list Audiobook) (w : World) :
  exists rs w', extract_one self div acc w = (inr rs, w').
Proof.
  unfold extract_one.
  destruct (extract_image_url_skipped self (cover_div_of div) w) as (w1 & Hcov & _).
  rewrite (bind_returns _ _ _ _ _ Hcov).
  assert (Haud : exists audio w2,
            (if truthy (data_id_of div) then get_audio_src self (the (data_id_of div))
             else mret None) w1 = (inr audio, w2)).
  { destruct (truthy (data_id_of div)); [|by eexists _, _].
    destruct (get_audio_src_returns self (the (data_id_of div)) w1) as [audio Ha].
    exists audio, (after (get_audio_src self (the (data_id_of div))) w1).
    rewrite (run_pair (get_audio_src _ _)), Ha. reflexivity. }
  destruct Haud as (audio & w2 & Haud). rewrite (bind_returns _ _ _ _ _ Haud).
  destruct (negb _ || negb _); by eexists _, _.
Qed.

Lemma extract_loop_returns (self : t) (divs : list Node) (acc : list Audiobook) (w : World) :
  exists rs w', extract_loop self divs acc w = (inr rs, w').
Proof.
  revert acc w. induction divs as [|div divs IH]; intros acc w; [by eexists _, _|].
  cbn [extract_loop].
  destruct (extract_one_returns self div acc w) as (acc1 & w1 & Hone).
  rewrite (bind_returns _ _ _ _ _ Hone). apply IH.
Qed.

Lemma extract_audiobook_data_returns (self : t) (soup : Node) (w : World) :
  exists rs w', extract_audiobook_data self soup w = (inr rs, w').
Proof.
  unfold extract_audiobook_data, mbind, M_bind, logging at 1.
  match goal with |- context [extract_loop self ?d ?a ?w0] =>
    destruct (extract_loop_returns self d a w0) as (rs & w1 & ->) end.
  by eexists _, _.
Qed.

End Total.

(** C4. The records [extract_audiobook_data] returns are those of the
    well-formed candidates, in document order: each has the title of its
    candidate, which is not empty, and comes from a candidate with a
    [data-id]; for each candidate without title or [data-id] one warning
    is logged and the loop goes on. When the parser accepts every page the
    extraction returns, and of [N] candidates with exactly one malformed it
    returns the [N-1] records of the others. *)
Theorem extract_audiobook_data_spec (self : t) (soup : Node) (w : World) :
  (forall rs w', extract_audiobook_data self soup w = (inr rs, w') ->
     map fixed_part rs = map fixed_part_of (List.filter well_formed (candidates soup)) /\
     Forall (fun r => title r <> "") rs /\
     skipped (log w')
     = (skipped (log w)
        + length (List.filter (fun d => negb (well_formed d)) (candidates soup)))%nat) /\
  ((forall b, exists soup', html_parser b = inr soup') ->
   exists rs w', extract_audiobook_data self soup w = (inr rs, w') /\
     forall pre bad post,
       candidates soup = (pre ++ bad :: post)%list ->
       forallb well_formed pre = true -> well_formed bad = false ->
       forallb well_formed post = true ->
       length rs = (length (candidates soup) - 1)%nat /\
       map fixed_part rs = map fixed_part_of (pre ++ post)).
Proof.
  assert (Hinv : forall rs w', extract_audiobook_data self soup w = (inr rs, w') ->
     map fixed_part rs = map fixed_part_of (List.filter well_formed (candidates soup)) /\
     Forall (fun r => title r <> "") rs /\
     skipped (log w')
     = (skipped (log w)
        + length (List.filter (fun d => negb (well_formed d)) (candidates soup)))%nat).
  { intros rs w' Hrun. unfold extract_audiobook_data in Hrun.
    apply bind_inv in Hrun as ([] & w0 & Hlog & Hrun). injection Hlog as <-.
    apply bind_inv in Hrun as (rs0 & w1 & Hloop & Hrun).
    apply bind_inv in Hrun as ([] & w2 & Hlog & Hrun). injection Hlog as <-.
    injection Hrun as <- <-.
    apply extract_loop_inv in Hloop as (rs' & -> & Hmap & Hs). simpl in *.
    split; [exact Hmap|]. split.
    - eapply titles_not_empty; [exact Hmap|apply filter_well_formed].
    - rewrite skipped_snoc, Hs, skipped_snoc. simpl. lia. }
  split; [exact Hinv|].
  intros Htotal.
  destruct (extract_audiobook_data_returns Htotal self soup w) as (rs & w' & Hrun).
  exists rs, w'. split; [exact Hrun|].
  intros pre bad post Hc Hpre Hbad Hpost.
  destruct (Hinv rs w' Hrun) as (Hmap & _ & _).
  assert (Hf : List.filter well_formed (candidates soup) = (pre ++ post)%list).
  { rewrite Hc, List.filter_app. simpl. rewrite Hbad.
    rewrite !filter_all by assumption. reflexivity. }
  rewrite Hf in Hmap. split; [|exact Hmap].
  rewrite <- (length_map fixed_part rs), Hmap, length_map, Hc, !length_app. simpl. lia.
Qed.

End Extractor.

(** The fixture catalog: four candidates, the last without [data-id]. *)
Lemma extract_audiobook_data_spec_witness :
  exists rs w',
    AudiobookScraper.extract_audiobook_data (H := Fixtures.site) Fixtures.kubus
      Fixtures.catalog Fixtures.empty_world = (inr rs, w') /\
    length rs = 3%nat /\
    map fixed_part rs
    = map fixed_part_of [Fixtures.item_a; Fixtures.item_b; Fixtures.item_c].
Proof.
  destruct (proj2 (extract_audiobook_data_spec (H := Fixtures.site) Fixtures.kubus
                     Fixtures.catalog Fixtures.empty_world)) as (rs & w' & Hrun & Hone).
  - intros b. unfold html_parser. simpl. unfold Fixtures.site_parser.
    repeat (match goal with |- context [match ?x with _ => _ end] => destruct x end;
            eauto).
  - exists rs, w'. split; [exact Hrun|].
    apply (Hone [Fixtures.item_a; Fixtures.item_b; Fixtures.item_c]
             Fixtures.item_without_id []); reflexivity.
Defined.

(** * Further properties *)

(** ** The plain downloader *)
Section DownloadFile.
Context `{Collaborators}.
Import FileManager.


(** X2. When the request is refused or answered with an error status,
    [download_file] logs the error and raises it again; the path is
    neither made nor emptied, and nothing else on disk changes. *)
Theorem download_file_fails_clean (u p : string) (n : Z) (w : World) (msg : string) :
  transport_error (http_get (clock w) u ∅) = Some msg ->
  result (download_file (Some u) p n) w = inl (RequestException msg) /\
  files (after (download_file (Some u) p n) w) = files w /\
  dirs (after (download_file (Some u) p n) w) = dirs w /\
  clock (after (download_file (Some u) p n) w) = S (clock w) /\
  log (after (download_file (Some u) p n) w)
  = (log w ++ [(INFO, "Downloading file from URL: " +:+ u +:+ " to path: " +:+ p);
               (ERROR, "Failed to download file: " +:+ msg)])%list.
Proof.
  intros Hm.
  unfold result, after, download_file, try_except, mbind, M_bind, logging, Requests.get.
  simpl. destruct (http_get (clock w) u ∅) as [m|r]; simpl in *.
  - injection Hm as ->. rewrite <- app_assoc. auto.
  - unfold Requests.raise_for_status.
    destruct (Requests.is_error r); [|discriminate]. injection Hm as <-.
    simpl. rewrite <- app_assoc. auto.
Qed.

End DownloadFile.


(** A download while the network is down. *)
Lemma download_file_fails_clean_witness :
  result (FileManager.download_file (H := Fixtures.offline) (Some "http://x/c.jpg")
            "/dst/cover.jpg" 8192) Fixtures.empty_world
  = inl (RequestException "Connection refused").
Proof.
  apply (download_file_fails_clean (H := Fixtures.offline) "http://x/c.jpg" "/dst/cover.jpg"
           8192 Fixtures.empty_world "Connection refused").
  reflexivity.
Defined.

(** ** The retrying downloader, for any number of retries *)
Section Retry.
Context `{Collaborators}.
Import FileManager.

(** An attempt on a path that is no directory returns with a file that is
    not empty, or raises an error that the loop catches. *)
Lemma attempt_mp3_outcomes (url : option string) (dest : string) (a : Z) (w : World) :
  dest ∉ dirs w ->
  (result (attempt_mp3 url dest a) w = inr tt /\
   exists b, files (after (attempt_mp3 url dest a) w) !! dest = Some b /\ b <> []) \/
  (exists e, result (attempt_mp3 url dest a) w = inl e /\
     is_RequestException_or_ValueError e = true).
Proof.
  intros Hdir.
  unfold result, after, attempt_mp3, mbind, M_bind, logging, Requests.get. simpl.
  destruct url as [u|]; simpl; [|right; eauto].
  destruct (http_get (clock w) u mp3_headers) as [msg|r]; simpl; [right; eauto|].
  unfold Requests.raise_for_status. destruct (Requests.is_error r); simpl; [right; eauto|].
  destruct (content r) as [|c0 cs]; simpl; [right; eauto|].
  unfold Fs.open_wb. simpl. rewrite bool_decide_eq_false_2 by done.
  match goal with |- context [Fs.write_all ?p ?c ?w0] =>
    rewrite (write_all_spec p c w0 []) by (simpl; apply lookup_insert_eq) end.
  rewrite iter_content_concat.
  unfold Fs.st_size, Fs.read, mbind, M_bind. simpl. rewrite lookup_insert_eq. simpl.
  destruct (raw r) as [|r0 rs]; simpl; [right; eauto|].
  left. split; [reflexivity|]. rewrite lookup_insert_eq. eauto.
Qed.

Lemma download_mp3_loop_outcomes (left : nat) (url : option string) (dest : string)
    (m a : Z) (w : World) :
  dest ∉ dirs w ->
  (result (download_mp3_loop left url dest m a) w = inr tt /\
   exists b, files (after (download_mp3_loop left url dest m a) w) !! dest = Some b
             /\ b <> []) \/
  result (download_mp3_loop left url dest m a) w = inl (ValueError "Max retries exceeded").
Proof.
  revert a w. induction left as [|left IH]; intros a w Hdir; [right; reflexivity|].
  unfold result, after. cbn [download_mp3_loop]. unfold try_except.
  pose proof (attempt_mp3_outcomes url dest a w Hdir) as Ha.
  pose proof (attempt_mp3_frame url dest a w) as (Hd & _).
  unfold result, after in Ha, Hd.
  destruct (attempt_mp3 url dest a w) as [[e|[]] w1]; simpl in *.
  - destruct Ha as [[[=] _]|(e' & [= <-] & ->)].
    unfold mbind, M_bind, logging at 1. simpl. apply IH. simpl. by rewrite Hd.
  - destruct Ha as [[_ Hb]|(e' & [=] & _)]. left. auto.
Qed.

(** X3. With a destination that is no directory, [download_mp3] ends in
    one of two ways, whatever the network does and whatever the URL is: it
    returns, and then the destination is a file that is not empty, or it
    raises [ValueError("Max retries exceeded")]; no [RequestException] and
    no other [ValueError] leaves it. *)
Theorem download_mp3_outcomes (url : option string) (dest : string) (max_retries : Z)
    (w : World) :
  dest ∉ dirs w ->
  (result (download_mp3 url dest max_retries) w = inr tt /\
   exists b, files (after (download_mp3 url dest max_retries) w) !! dest = Some b
             /\ b <> []) \/
  result (download_mp3 url dest max_retries) w = inl (ValueError "Max retries exceeded").
Proof. apply download_mp3_loop_outcomes. Qed.

(** X4. Against answers that all fail, [download_mp3] sends exactly
    [max_retries] requests, none if [max_retries] is not positive, and then
    raises [ValueError("Max retries exceeded")]. *)
Theorem download_mp3_gives_up (u dest : string) (max_retries : Z) (w : World) :
  dest ∉ dirs w ->
  (forall k, (k < Z.to_nat max_retries)%nat ->
     attempt_fails (http_get (clock w + k) u mp3_headers) = true) ->
  result (download_mp3 (Some u) dest max_retries) w
  = inl (ValueError "Max retries exceeded") /\
  clock (after (download_mp3 (Some u) dest max_retries) w)
  = (clock w + Z.to_nat max_retries)%nat.
Proof.
  intros Hdir Hfail. unfold result, after, download_mp3.
  destruct (download_mp3_loop_exhausted (Z.to_nat max_retries) u dest max_retries 0 w
              Hdir Hfail) as (w' & -> & Hc & _).
  split; [reflexivity|exact Hc].
Qed.

(** X5. With [max_retries] not positive, [download_mp3] raises at once:
    it sends no request and leaves the disk as it is. *)
Theorem download_mp3_no_attempt (url : option string) (dest : string) (max_retries : Z)
    (w : World) :
  max_retries <= 0 ->
  result (download_mp3 url dest max_retries) w = inl (ValueError "Max retries exceeded") /\
  clock (after (download_mp3 url dest max_retries) w) = clock w /\
  files (after (download_mp3 url dest max_retries) w) = files w /\
  dirs (after (download_mp3 url dest max_retries) w) = dirs w.
Proof.
  intros Hm. unfold result, after, download_mp3.
  replace (Z.to_nat max_retries) with 0%nat by lia. auto.
Qed.

(** X6. When the first [k] answers fail and the next one does not, with
    [k] below [max_retries], [download_mp3] returns after exactly [k + 1]
    requests and the destination holds the body of that answer. *)
Theorem download_mp3_first_good (u dest : string) (max_retries : Z) (k : nat) (w : World)
    (r : Response) :
  dest ∉ dirs w ->
  (k < Z.to_nat max_retries)%nat ->
  (forall j, (j < k)%nat ->
     attempt_fails (http_get (clock w + j) u mp3_headers) = true) ->
  http_get (clock w + k) u mp3_headers = Answer r ->
  attempt_fails (Answer r) = false ->
  result (download_mp3 (Some u) dest max_retries) w = inr tt /\
  files (after (download_mp3 (Some u) dest max_retries) w) !! dest = Some (raw r) /\
  clock (after (download_mp3 (Some u) dest max_retries) w) = (clock w + k + 1)%nat.
Proof.
  intros Hdir Hk Hfail Hr Hok. unfold result, after, download_mp3.
  destruct (download_mp3_loop_returns (Z.to_nat max_retries) k u dest max_retries 0 w r
              Hdir Hk Hfail Hr Hok) as (w' & -> & Hf & Hc & _).
  auto.
Qed.

(** X7. An error of the file system is not retried: when the destination
    is a directory and the first answer is good, [download_mp3] raises the
    [OSError] of [open] after this one request. *)
Theorem download_mp3_directory (u dest : string) (max_retries : Z) (w : World)
    (r : Response) :
  0 < max_retries ->
  dest ∈ dirs w ->
  http_get (clock w) u mp3_headers = Answer r ->
  Requests.is_error r = false ->
  content r <> [] ->
  result (download_mp3 (Some u) dest max_retries) w
  = inl (OSError ("Is a directory: " +:+ dest)) /\
  clock (after (download_mp3 (Some u) dest max_retries) w) = S (clock w).
Proof.
  intros Hm Hdir Hr He Hc. unfold result, after, download_mp3.
  destruct (Z.to_nat max_retries) as [|left] eqn:Hl; [lia|].
  cbn [download_mp3_loop].
  unfold try_except, attempt_mp3, mbind, M_bind, logging, Requests.get. simpl.
  rewrite Hr. simpl. unfold Requests.raise_for_status. rewrite He. simpl.
  destruct (content r) as [|c0 cs]; [contradiction|]. simpl.
  unfold Fs.open_wb. simpl. rewrite bool_decide_eq_true_2 by done. auto.
Qed.

End Retry.

(** A download from no URL at all. *)
Lemma download_mp3_outcomes_witness :
  (result (FileManager.download_mp3 (H := Fixtures.site) None "/dst/a.mp3" 3)
     Fixtures.empty_world = inr tt /\
   exists b, files (after (FileManager.download_mp3 (H := Fixtures.site) None "/dst/a.mp3" 3)
                      Fixtures.empty_world) !! "/dst/a.mp3" = Some b /\ b <> []) \/
  result (FileManager.download_mp3 (H := Fixtures.site) None "/dst/a.mp3" 3)
    Fixtures.empty_world = inl (ValueError "Max retries exceeded").
Proof.
  apply (download_mp3_outcomes (H := Fixtures.site) None "/dst/a.mp3" 3 Fixtures.empty_world).
  apply not_elem_of_empty.
Defined.

(** Five retries against the network that always fails. *)
Lemma download_mp3_gives_up_witness :
  result (FileManager.download_mp3 (H := Fixtures.failing) (Some "http://x/a.mp3")
            "/dst/a.mp3" 5) Fixtures.empty_world
  = inl (ValueError "Max retries exceeded") /\
  clock (after (FileManager.download_mp3 (H := Fixtures.failing) (Some "http://x/a.mp3")
                  "/dst/a.mp3" 5) Fixtures.empty_world) = 5%nat.
Proof.
  apply (download_mp3_gives_up (H := Fixtures.failing) "http://x/a.mp3" "/dst/a.mp3" 5
           Fixtures.empty_world).
  - apply not_elem_of_empty.
  - intros [|[|k]] _; reflexivity.
Defined.

(** No retries at all. *)
Lemma download_mp3_no_attempt_witness :
  result (FileManager.download_mp3 (H := Fixtures.site) (Some "http://x/a.mp3")
            "/dst/a.mp3" 0) Fixtures.empty_world
  = inl (ValueError "Max retries exceeded").
Proof.
  apply (download_mp3_no_attempt (H := Fixtures.site) (Some "http://x/a.mp3") "/dst/a.mp3" 0
           Fixtures.empty_world).
  lia.
Defined.

(** Five retries against the network that recovers at its third answer. *)
Lemma download_mp3_first_good_witness :
  result (FileManager.download_mp3 (H := Fixtures.flaky) (Some "http://x/a.mp3")
            "/dst/a.mp3" 5) Fixtures.empty_world = inr tt /\
  files (after (FileManager.download_mp3 (H := Fixtures.flaky) (Some "http://x/a.mp3")
                  "/dst/a.mp3" 5) Fixtures.empty_world) !! "/dst/a.mp3"
  = Some Fixtures.mp3 /\
  clock (after (FileManager.download_mp3 (H := Fixtures.flaky) (Some "http://x/a.mp3")
                  "/dst/a.mp3" 5) Fixtures.empty_world) = 3%nat.
Proof.
  apply (download_mp3_first_good (H := Fixtures.flaky) "http://x/a.mp3" "/dst/a.mp3" 5 2
           Fixtures.empty_world (mkResponse 200 Fixtures.mp3 Fixtures.mp3)).
  - apply not_elem_of_empty.
  - simpl. lia.
  - intros [|[|j]] Hj; [reflexivity|reflexivity|lia].
  - reflexivity.
  - reflexivity.
Defined.

(** A download onto the destination directory itself. *)
Lemma download_mp3_directory_witness :
  result (FileManager.download_mp3 (H := Fixtures.site) (Some "http://x/a.mp3") "/dst" 3)
    Fixtures.fresh = inl (OSError "Is a directory: /dst") /\
  clock (after (FileManager.download_mp3 (H := Fixtures.site) (Some "http://x/a.mp3")
                  "/dst" 3) Fixtures.fresh) = 1%nat.
Proof.
  apply (download_mp3_directory (H := Fixtures.site) "http://x/a.mp3" "/dst" 3
           Fixtures.fresh (mkResponse 200 Fixtures.mp3 Fixtures.mp3)).
  - lia.
  - simpl. set_solver.
  - reflexivity.
  - reflexivity.
  - discriminate.
Defined.

(** ** The tagger *)
Section Tagger.
Context `{Collaborators}.
Import FileManager.

(** The tag library reads back the tag it saved. *)
Hypothesis load_save : forall (audio : ID3) (b : bytes),
  ID3_load (ID3_save audio b) = Header audio.

(** X8. When the audio file has a tag [old], or no tag header (then [old]
    is empty), and the cover file is there, [set_mp3_metadata] returns and
    the tag of the audio file then has the title under [TIT2], the album
    under [TALB] and the bytes of the cover file as a JPEG front cover
    under [APIC:Cover], whatever these frames held before; every other
    frame of [old] is kept, and no other file changes. *)
Theorem set_mp3_metadata_frames (mp3 name album cover : string) (w : World) (b d : bytes)
    (old : ID3) :
  files w !! mp3 = Some b ->
  files w !! cover = Some d ->
  ID3_load b = Header old \/ ID3_load b = NoHeader /\ old = ∅ ->
  result (set_mp3_metadata mp3 name album cover) w = inr tt /\
  (forall q, q <> mp3 ->
     files (after (set_mp3_metadata mp3 name album cover) w) !! q = files w !! q) /\
  exists b' audio,
    files (after (set_mp3_metadata mp3 name album cover) w) !! mp3 = Some b' /\
    ID3_load b' = Header audio /\
    audio !! "TIT2" = Some (TIT2 3 name) /\
    audio !! "TALB" = Some (TALB 3 album) /\
    audio !! "APIC:Cover" = Some (APIC 3 "image/jpeg" 3 "Cover" d) /\
    forall key, key <> "TIT2" -> key <> "TALB" -> key <> "APIC:Cover" ->
      audio !! key = old !! key.
Proof.
  intros Hb Hd Hl. unfold result, after.
  rewrite (set_mp3_metadata_ok mp3 name album cover w b d old Hb Hd Hl). simpl.
  split; [reflexivity|]. split; [intros q Hq; by rewrite lookup_insert_ne|].
  exists (ID3_save (tags_for name album d old) b), (tags_for name album d old).
  split; [apply lookup_insert_eq|]. split; [apply load_save|].
  unfold tags_for, add. simpl. repeat split.
  - rewrite !lookup_insert_ne by discriminate. apply lookup_insert_eq.
  - rewrite lookup_insert_ne by discriminate. apply lookup_insert_eq.
  - apply lookup_insert_eq.
  - intros key H1 H2 H3. rewrite !lookup_insert_ne by done. reflexivity.
Qed.

End Tagger.

Section TaggerFails.
Context `{Collaborators}.
Import FileManager.

(** X9. When the cover file is missing, [set_mp3_metadata] raises the
    error of [open] before anything is saved: the audio file and every
    other file stay as they were. *)
Theorem set_mp3_metadata_without_cover (mp3 name album cover : string) (w : World)
    (b : bytes) :
  files w !! mp3 = Some b ->
  (forall msg, ID3_load b <> Unreadable msg) ->
  files w !! cover = None ->
  result (set_mp3_metadata mp3 name album cover) w
  = inl (OSError ("No such file or directory: " +:+ cover)) /\
  files (after (set_mp3_metadata mp3 name album cover) w) = files w.
Proof.
  intros Hb Hl Hc.
  unfold result, after, set_mp3_metadata, called, load_tags, save_tags, Fs.read, Fs.put,
    logging, mbind, M_bind. simpl. rewrite Hb.
  destruct (ID3_load b) as [t0| |msg]; simpl; [| |by destruct (Hl msg)];
    rewrite Hc; auto.
Qed.

End TaggerFails.

(** A file without a tag, tagged with the codec of the fixtures. *)
Lemma set_mp3_metadata_frames_witness :
  let w := mkWorld {[ "/dst/a.mp3" := Fixtures.mp3; "/dst/cover.jpg" := Fixtures.jpeg ]}
             ∅ [] 0 0 0 in
  result (FileManager.set_mp3_metadata (H := Fixtures.site) "/dst/a.mp3" "Story" "Album"
            "/dst/cover.jpg") w = inr tt.
Proof.
  intros w.
  apply (set_mp3_metadata_frames (H := Fixtures.site) tag_load_save "/dst/a.mp3" "Story"
           "Album" "/dst/cover.jpg" w Fixtures.mp3 Fixtures.jpeg ∅).
  - reflexivity.
  - reflexivity.
  - right. split; reflexivity.
Defined.

(** The same file, with no cover beside it. *)
Lemma set_mp3_metadata_without_cover_witness :
  let w := mkWorld {[ "/dst/a.mp3" := Fixtures.mp3 ]} ∅ [] 0 0 0 in
  result (FileManager.set_mp3_metadata (H := Fixtures.site) "/dst/a.mp3" "Story" "Album"
            "/dst/cover.jpg") w
  = inl (OSError "No such file or directory: /dst/cover.jpg") /\
  files (after (FileManager.set_mp3_metadata (H := Fixtures.site) "/dst/a.mp3" "Story"
                  "Album" "/dst/cover.jpg") w) = files w.
Proof.
  intros w.
  apply (set_mp3_metadata_without_cover (H := Fixtures.site) "/dst/a.mp3" "Story" "Album"
           "/dst/cover.jpg" w Fixtures.mp3).
  - reflexivity.
  - intros msg. discriminate.
  - reflexivity.
Defined.

(** ** Scraping: requests and disk *)

Lemma same_disk_refl (w : World) : same_disk w w.
Proof. repeat split. Qed.

Lemma same_disk_trans (w1 w2 w3 : World) :
  same_disk w1 w2 -> same_disk w2 w3 -> same_disk w1 w3.
Proof. intros (? & ? & ?) (? & ? & ?). repeat split; congruence. Qed.

Section Scrape.
Context `{Collaborators}.
Import Py Bs4 AudiobookScraper.

Lemma fetch_page_fails (self : t) (w : World) (msg : string) :
  transport_error (http_get (clock w) (url self) (headers self)) = Some msg ->
  result (fetch_page self) w = inl (RequestException msg) /\
  log (after (fetch_page self) w)
  = (log w ++ [(INFO, "Fetching page content from URL: " +:+ url self);
               (ERROR, "Failed to fetch page content: " +:+ msg)])%list /\
  clock (after (fetch_page self) w) = S (clock w).
Proof.
  intros Hm.
  unfold result, after, fetch_page, try_except, mbind, M_bind, logging, Requests.get.
  simpl. destruct (http_get (clock w) (url self) (headers self)) as [m|r]; simpl in *.
  - injection Hm as ->. rewrite <- app_assoc. auto.
  - unfold Requests.raise_for_status.
    destruct (Requests.is_error r); [|discriminate]. injection Hm as <-.
    simpl. rewrite <- app_assoc. auto.
Qed.

(** X10. When the request for the catalog is refused or answered with an
    error status, [fetch_page] logs the error and raises it again, unlike
    [get_audio_src], which returns [None]. *)
Theorem fetch_page_raises (self : t) (w : World) (msg : string) :
  transport_error (http_get (clock w) (url self) (headers self)) = Some msg ->
  result (fetch_page self) w = inl (RequestException msg) /\
  log (after (fetch_page self) w)
  = (log w ++ [(INFO, "Fetching page content from URL: " +:+ url self);
               (ERROR, "Failed to fetch page content: " +:+ msg)])%list /\
  clock (after (fetch_page self) w) = S (clock w).
Proof. apply fetch_page_fails. Qed.

Lemma fetch_page_effect (self : t) (w : World) :
  same_disk w (after (fetch_page self) w) /\
  clock (after (fetch_page self) w) = S (clock w).
Proof.
  unfold after, fetch_page, try_except, mbind, M_bind, logging, Requests.get. simpl.
  destruct (http_get _ _ _) as [m|r]; simpl; [by repeat split|].
  unfold Requests.raise_for_status. destruct (Requests.is_error r); simpl; [by repeat split|].
  unfold parse. destruct (html_parser (content r)) as [e|soup]; simpl; [|by repeat split].
  destruct (is_RequestException e); by repeat split.
Qed.

Lemma get_audio_src_effect (self : t) (d : string) (w : World) :
  same_disk w (after (get_audio_src self d) w) /\
  clock (after (get_audio_src self d) w) = S (clock w).
Proof.
  unfold after, get_audio_src, try_except. simpl.
  unfold mbind, M_bind, Requests.get, logging. simpl.
  destruct (http_get _ _ _) as [m|r]; simpl; [by repeat split|].
  unfold Requests.raise_for_status. destruct (Requests.is_error r); simpl; [by repeat split|].
  unfold parse. destruct (html_parser (content r)) as [e|soup]; simpl; [|by repeat split].
  destruct (is_RequestException e); by repeat split.
Qed.

Lemma extract_image_url_effect (self : t) (c : option Node) (w : World) :
  same_disk w (after (extract_image_url self c) w) /\
  clock (after (extract_image_url self c) w) = clock w.
Proof.
  unfold after. destruct c as [div|]; simpl; [|by repeat split].
  destruct (get div "style"); by repeat split.
Qed.

Lemma extract_one_effect (self : t) (div : Node) (acc : list Audiobook) (w : World) :
  same_disk w (after (extract_one self div acc) w) /\
  clock (after (extract_one self div acc) w)
  = (clock w + if has_data_id div then 1 else 0)%nat.
Proof.
  unfold after, extract_one, has_data_id.
  destruct (extract_image_url_skipped self (cover_div_of div) w) as (w1 & Hcov & _).
  pose proof (extract_image_url_effect self (cover_div_of div) w) as [Hd1 Hc1].
  unfold after in Hd1, Hc1. rewrite Hcov in Hd1, Hc1. simpl in Hd1, Hc1.
  rewrite (bind_returns _ _ _ _ _ Hcov). unfold mbind, M_bind.
  destruct (truthy (data_id_of div)).
  - pose proof (get_audio_src_effect self (the (data_id_of div)) w1) as [Hd2 Hc2].
    unfold after in Hd2, Hc2.
    destruct (get_audio_src self (the (data_id_of div)) w1) as [[e|audio] w2]; simpl in *.
    + split; [eapply same_disk_trans; eassumption|lia].
    + rewrite orb_false_r.
      destruct (negb (truthy (title_of div))); simpl;
        (split; [eapply same_disk_trans; [exact Hd1|]|lia]);
        destruct Hd2 as (? & ? & ?); by repeat split.
  - simpl. rewrite orb_true_r. simpl.
    split; [|lia]. destruct Hd1 as (? & ? & ?). by repeat split.
Qed.

Lemma extract_loop_effect (self : t) (divs : list Node) (acc : list Audiobook) (w : World) :
  same_disk w (after (extract_loop self divs acc) w) /\
  (clock (after (extract_loop self divs acc) w)
   <= clock w + length (List.filter has_data_id divs))%nat /\
  (forall rs, result (extract_loop self divs acc) w = inr rs ->
     clock (after (extract_loop self divs acc) w)
     = (clock w + length (List.filter has_data_id divs))%nat).
Proof.
  revert acc w. induction divs as [|div divs IH]; intros acc w.
  - unfold result, after. simpl. split; [apply same_disk_refl|]. split; lia.
  - unfold result, after. cbn [extract_loop]. unfold mbind, M_bind.
    pose proof (extract_one_effect self div acc w) as [Hd1 Hc1]. unfold after in Hd1, Hc1.
    destruct (extract_one self div acc w) as [[e|acc1] w1]; simpl in *.
    + split; [exact Hd1|]. split; [|discriminate].
      destruct (has_data_id div); simpl; lia.
    + destruct (IH acc1 w1) as (Hd2 & Hle & Heq). unfold result, after in *.
      split; [eapply same_disk_trans; eassumption|].
      split.
      * destruct (has_data_id div); simpl; lia.
      * intros rs Hrs. rewrite (Heq rs Hrs). destruct (has_data_id div); simpl; lia.
Qed.

(** X11. When [extract_audiobook_data] returns, it has sent exactly one
    request for every candidate with a [data-id] that is not empty, also
    for the candidates it dropped for the lack of a title, and none for
    the others. *)
Theorem extract_audiobook_data_requests (self : t) (soup : Node) (w w' : World)
    (rs : list Audiobook) :
  extract_audiobook_data self soup w = (inr rs, w') ->
  clock w' = (clock w + length (List.filter has_data_id (candidates soup)))%nat.
Proof.
  intros Hrun. unfold extract_audiobook_data in Hrun.
  apply bind_inv in Hrun as ([] & w0 & Hlog & Hrun). injection Hlog as <-.
  apply bind_inv in Hrun as (rs0 & w1 & Hloop & Hrun).
  apply bind_inv in Hrun as ([] & w2 & Hlog & Hrun). injection Hlog as <-.
  injection Hrun as _ <-. simpl.
  match type of Hloop with extract_loop ?s ?d ?a ?w0 = _ =>
    destruct (extract_loop_effect s d a w0) as (_ & _ & Heq);
    specialize (Heq rs0); unfold result, after in Heq; rewrite Hloop in Heq end.
  simpl in Heq. apply Heq. reflexivity.
Qed.

(** X12. Scraping leaves the disk alone: whatever the network and the
    parser do, [run] writes no file, makes no directory and tags
    nothing. *)
Theorem run_leaves_disk (self : t) (w : World) :
  files (after (run self) w) = files w /\
  dirs (after (run self) w) = dirs w /\
  tagged (after (run self) w) = tagged w.
Proof.
  change (same_disk w (after (run self) w)).
  unfold after, run, try_except, mbind, M_bind.
  pose proof (fetch_page_effect self w) as [Hd1 _]. unfold after in Hd1.
  destruct (fetch_page self w) as [[e|soup] w1]; simpl in *.
  - destruct Hd1 as (? & ? & ?). by repeat split.
  - unfold extract_audiobook_data, mbind, M_bind, logging at 1. simpl.
    match goal with |- context [extract_loop self ?d ?a ?w0] =>
      pose proof (extract_loop_effect self d a w0) as (Hd2 & _);
      unfold after in Hd2; destruct (extract_loop self d a w0) as [[e|rs] w2] end;
      simpl in *; (eapply same_disk_trans; [exact Hd1|]);
      destruct Hd2 as (? & ? & ?); by repeat split.
Qed.

End Scrape.

(** ** Candidates that are dropped *)

Lemma lstrip_all_space (s : string) : all_space s = true -> Py.lstrip s = "".
Proof.
  induction s as [|c s IH]; [reflexivity|]. simpl.
  intros [Hc Hs]%andb_true_iff. rewrite Hc. by apply IH.
Qed.

Lemma strip_all_space (s : string) : all_space s = true -> Py.strip s = "".
Proof. intros Hs. unfold Py.strip. by rewrite lstrip_all_space. Qed.

Lemma get_text_strip_blank (n : Bs4.Node) :
  forallb all_space (Bs4.all_strings n) = true -> Bs4.get_text_strip n = "".
Proof.
  unfold Bs4.get_text_strip. induction (Bs4.all_strings n) as [|s l IH]; [reflexivity|].
  simpl. intros [Hs Hl]%andb_true_iff. rewrite strip_all_space by exact Hs. simpl.
  by apply IH.
Qed.

Lemma title_blank_not_truthy (div : Bs4.Node) :
  title_blank div = true -> Py.truthy (AudiobookScraper.title_of div) = false.
Proof.
  unfold title_blank, AudiobookScraper.title_of.
  destruct (Bs4.find_class "div" "title" div) as [td|]; [|reflexivity].
  intros Hb. simpl. by rewrite get_text_strip_blank.
Qed.

Section Dropped.
Context `{Collaborators}.
Import Py Bs4 AudiobookScraper.

(** X13. A candidate without [data-id], or with an empty one, is dropped
    without a request: the loop body returns the list as it was, and the
    warning it logs ends in what the attribute held. *)
Theorem extract_one_without_data_id (self : t) (div : Node) (acc : list Audiobook)
    (w : World) :
  has_data_id div = false ->
  result (extract_one self div acc) w = inr acc /\
  clock (after (extract_one self div acc) w) = clock w /\
  List.last (log (after (extract_one self div acc) w)) (INFO, "")
  = (WARNING, "Skipping audiobook with missing title or data-id: " +:+ fmt (data_id_of div)).
Proof.
  unfold has_data_id. intros Hid. unfold result, after, extract_one.
  destruct (extract_image_url_skipped self (cover_div_of div) w) as (w1 & Hcov & _).
  pose proof (extract_image_url_effect self (cover_div_of div) w) as [_ Hc1].
  unfold after in Hc1. rewrite Hcov in Hc1. simpl in Hc1.
  rewrite (bind_returns _ _ _ _ _ Hcov). rewrite Hid. unfold mbind, M_bind. simpl.
  rewrite orb_true_r. simpl. split; [reflexivity|]. split; [exact Hc1|].
  apply last_last.
Qed.

(** X14. A candidate whose title element is missing or holds only white
    space is dropped, but not before the resolver was called: if it has a
    [data-id], the request for its audio source has been sent. *)
Theorem extract_one_blank_title (self : t) (div : Node) (acc rs : list Audiobook)
    (w w' : World) :
  title_blank div = true ->
  extract_one self div acc w = (inr rs, w') ->
  rs = acc /\ clock w' = (clock w + if has_data_id div then 1 else 0)%nat.
Proof.
  intros Hb Hrun. split.
  - apply extract_one_inv in Hrun as [[audio ->] _].
    unfold well_formed. rewrite title_blank_not_truthy by exact Hb. apply app_nil_r.
  - pose proof (extract_one_effect self div acc w) as [_ Hc].
    unfold after in Hc. rewrite Hrun in Hc. exact Hc.
Qed.

End Dropped.

(** ** The URL of a detail page *)

Lemma format_go_cons (c : ascii) (r v : string) :
  Py.format_go 0 (String c r) v
  = match Py.strip_prefix "{data_id}" (String c r) with
    | Some _ => v +:+ Py.format_go 8 r v
    | None => String c (Py.format_go 0 r v)
    end.
Proof. reflexivity. Qed.

Lemma strip_prefix_other (a b : ascii) (p s : string) :
  Ascii.eqb b a = false -> Py.strip_prefix (String a p) (String b s) = None.
Proof. intros Hab. cbn [Py.strip_prefix]. by rewrite Ascii.eqb_sym, Hab. Qed.

Lemma format_go_plain (s v : string) : no_brace s = true -> Py.format_go 0 s v = s.
Proof.
  induction s as [|c s IH]; [reflexivity|]. cbn [no_brace].
  intros [[Ho _]%andb_true_iff Hs]%andb_true_iff. apply negb_true_iff in Ho.
  rewrite format_go_cons, strip_prefix_other, IH by assumption. reflexivity.
Qed.

(** X15. For a template [prefix{data_id}suffix] without other braces, the
    URL that [get_audio_src] requests for an identifier is the prefix, the
    identifier as it is, and the suffix. *)
Theorem detail_url_template (self : AudiobookScraper.t) (prefix suffix data_id : string) :
  AudiobookScraper.audio_fetch_template self = prefix +:+ "{data_id}" +:+ suffix ->
  no_brace prefix = true -> no_brace suffix = true ->
  AudiobookScraper.detail_url self data_id = prefix +:+ data_id +:+ suffix.
Proof.
  intros Ht Hp Hs. unfold AudiobookScraper.detail_url, Py.format_data_id. rewrite Ht.
  clear Ht. induction prefix as [|c prefix IH].
  - change (data_id +:+ Py.format_go 0 suffix data_id = data_id +:+ suffix).
    by rewrite format_go_plain.
  - cbn [no_brace] in Hp. apply andb_true_iff in Hp as [[Ho _]%andb_true_iff Hp].
    apply negb_true_iff in Ho.
    rewrite !(append_cons c prefix), format_go_cons, strip_prefix_other, IH by assumption.
    reflexivity.
Qed.

(** The catalog request refused. *)
Lemma fetch_page_raises_witness :
  result (AudiobookScraper.fetch_page (H := Fixtures.offline) Fixtures.kubus)
    Fixtures.empty_world = inl (RequestException "Connection refused").
Proof.
  apply (fetch_page_raises (H := Fixtures.offline) Fixtures.kubus Fixtures.empty_world
           "Connection refused").
  reflexivity.
Defined.

(** The fixture catalog: three of its four candidates have a [data-id]. *)
Lemma extract_audiobook_data_requests_witness :
  clock (after (AudiobookScraper.extract_audiobook_data (H := Fixtures.site) Fixtures.kubus
                  Fixtures.catalog) Fixtures.empty_world) = 3%nat.
Proof.
  apply (extract_audiobook_data_requests (H := Fixtures.site) Fixtures.kubus Fixtures.catalog
           Fixtures.empty_world _
           [AudiobookScraper.mkAudiobook "Story A" None (Some "http://x/a.mp3");
            AudiobookScraper.mkAudiobook "Story B" (Some "http://x/c.jpg")
              (Some "http://x/a.mp3");
            AudiobookScraper.mkAudiobook "Story C" (Some "http://x/c.jpg") None]).
  vm_compute. reflexivity.
Defined.

(** The candidate of the fixture catalog that has no [data-id]. *)
Lemma extract_one_without_data_id_witness :
  result (AudiobookScraper.extract_one (H := Fixtures.site) Fixtures.kubus
            Fixtures.item_without_id []) Fixtures.empty_world = inr [] /\
  clock (after (AudiobookScraper.extract_one (H := Fixtures.site) Fixtures.kubus
                  Fixtures.item_without_id []) Fixtures.empty_world) = 0%nat /\
  List.last (log (after (AudiobookScraper.extract_one (H := Fixtures.site) Fixtures.kubus
                           Fixtures.item_without_id []) Fixtures.empty_world)) (INFO, "")
  = (WARNING, "Skipping audiobook with missing title or data-id: None").
Proof.
  apply (extract_one_without_data_id (H := Fixtures.site) Fixtures.kubus
           Fixtures.item_without_id [] Fixtures.empty_world).
  reflexivity.
Defined.

(** A candidate with a [data-id] and a title of spaces. *)
Lemma extract_one_blank_title_witness :
  let div := Bs4.Tag "div" {[ "class" := "audiobook"; "data-id" := "41" ]}
               [Bs4.Tag "div" {[ "class" := "title" ]} [Bs4.NavigableString "   "]] in
  let run := AudiobookScraper.extract_one (H := Fixtures.site) Fixtures.kubus div [] in
  result run Fixtures.empty_world = inr [] /\
  clock (after run Fixtures.empty_world) = 1%nat.
Proof.
  intros div run.
  destruct (extract_one_blank_title (H := Fixtures.site) Fixtures.kubus div []
              (match result run Fixtures.empty_world with inr rs => rs | inl _ => [] end)
              Fixtures.empty_world (after run Fixtures.empty_world)) as [Hrs Hc].
  - reflexivity.
  - vm_compute. reflexivity.
  - split; [vm_compute; reflexivity|exact Hc].
Defined.

(** The template of [main]. *)
Lemma detail_url_template_witness :
  AudiobookScraper.detail_url Fixtures.kubus "42" = "https://kubus.pl/?p=" +:+ "42" +:+ "".
Proof.
  apply (detail_url_template Fixtures.kubus "https://kubus.pl/?p=" "" "42"); reflexivity.
Defined.

(** ** The paths of different items *)







(** ** What the processor can do to the world *)
Section ProcessEffect.
Context `{Collaborators}.
Import FileManager AudiobookProcessor.

Lemma download_file_clock (url : option string) (p : string) (n : Z) (w : World) :
  (clock w <= clock (after (download_file url p n) w) <= S (clock w))%nat.
Proof.
  unfold after, download_file, try_except, mbind, M_bind, logging, Requests.get. simpl.
  destruct url as [u|]; simpl; [|lia].
  destruct (http_get (clock w) u ∅) as [msg|r]; simpl; [lia|].
  unfold Requests.raise_for_status. destruct (Requests.is_error r); simpl; [lia|].
  unfold Fs.open_wb. simpl. destruct (bool_decide (p ∈ dirs w)); simpl; [lia|].
  match goal with |- context [Fs.write_all ?p ?c ?w0] =>
    rewrite (write_all_spec p c w0 []) by (simpl; apply lookup_insert_eq) end.
  simpl. lia.
Qed.

Lemma attempt_mp3_clock (url : option string) (p : string) (a : Z) (w : World) :
  (clock w <= clock (after (attempt_mp3 url p a) w) <= S (clock w))%nat.
Proof.
  unfold after, attempt_mp3, mbind, M_bind, logging, Requests.get. simpl.
  destruct url as [u|]; simpl; [|lia].
  destruct (http_get (clock w) u mp3_headers) as [msg|r]; simpl; [lia|].
  unfold Requests.raise_for_status. destruct (Requests.is_error r); simpl; [lia|].
  destruct (content r) as [|c0 cs]; simpl; [lia|].
  unfold Fs.open_wb. simpl. destruct (bool_decide (p ∈ dirs w)); simpl; [lia|].
  match goal with |- context [Fs.write_all ?p ?c ?w0] =>
    rewrite (write_all_spec p c w0 []) by (simpl; apply lookup_insert_eq) end.
  unfold Fs.st_size, Fs.read, mbind, M_bind. simpl. rewrite lookup_insert_eq. simpl.
  destruct (_ =? 0); simpl; lia.
Qed.

Lemma download_mp3_loop_clock (left : nat) (url : option string) (p : string) (m a : Z)
    (w : World) :
  (clock w <= clock (after (download_mp3_loop left url p m a) w) <= clock w + left)%nat.
Proof.
  revert a w. induction left as [|left IH]; intros a w; [simpl; lia|].
  unfold after. cbn [download_mp3_loop]. unfold try_except.
  pose proof (attempt_mp3_clock url p a w) as Ha. unfold after in Ha.
  destruct (attempt_mp3 url p a w) as [[e|[]] w1]; simpl in *; [|lia].
  destruct (is_RequestException_or_ValueError e); [|simpl; lia].
  unfold mbind, M_bind, logging at 1. simpl.
  match goal with |- context [download_mp3_loop left url p m ?a' ?w0] =>
    pose proof (IH a' w0) as Hl end.
  unfold after in Hl. simpl in Hl. lia.
Qed.

Lemma set_mp3_metadata_effect (mp3 name album cover : string) (w : World) :
  (forall q, q <> mp3 ->
     files (after (set_mp3_metadata mp3 name album cover) w) !! q = files w !! q) /\
  dirs (after (set_mp3_metadata mp3 name album cover) w) = dirs w /\
  clock (after (set_mp3_metadata mp3 name album cover) w) = clock w.
Proof.
  unfold after, set_mp3_metadata, called, load_tags, save_tags, Fs.read, Fs.put,
    logging, mbind, M_bind. simpl.
  destruct (files w !! mp3) as [b|] eqn:Hb; simpl; [|auto].
  destruct (ID3_load b) as [t0| |msg]; simpl; [| |auto];
    (destruct (files w !! cover) as [d|]; simpl; [|auto]);
    rewrite Hb; simpl; (split; [intros q Hq; by rewrite lookup_insert_ne|auto]).
Qed.

(** What a run of [process] can have done, however it ended. *)
Lemma process_effect (name album dest : string) (cl al : option string) (w : World) :
  let self := make name cl al album dest in
  let w' := after (process self) w in
  (forall q, q <> cover_path self -> q <> mp3_path self -> files w' !! q = files w !! q) /\
  (forall d, files w !! cover_path self = Some d ->
     files w' !! cover_path self = Some d /\ (clock w' <= clock w + 3)%nat) /\
  (dirs w' = dirs w \/ dirs w' = {[folder_path self]} ∪ dirs w) /\
  (clock w <= clock w' <= clock w + 4)%nat.
Proof.
  intros self w'. subst w'. unfold after, process, mbind, M_bind, Fs.mkdir.
  destruct (files w !! folder_path self) eqn:Hf; [simpl; repeat split; auto; lia|].
  cbv beta iota.
  unfold Fs.exists_.
  set (wa := with_dirs ({[folder_path self]} ∪ dirs w) w).
  match goal with |- context [?m wa] =>
    lazymatch m with (if _ then _ else _) => set (mc := m) end end.
  assert (Hc : only_wrote (cover_path self) wa (after mc wa) /\
               (clock wa <= clock (after mc wa) <= S (clock wa))%nat /\
               (forall d, files w !! cover_path self = Some d ->
                  files (after mc wa) !! cover_path self = Some d /\
                  clock (after mc wa) = clock wa)).
  { subst mc. destruct (Fs.present (cover_path self) wa) eqn:Hp; cbn [negb].
    - unfold after. simpl. split; [apply only_wrote_refl|]. split; [lia|]. auto.
    - unfold after, mbind, M_bind, logging at 1. simpl.
      match goal with |- context [download_file ?u ?p ?n ?w0] =>
        pose proof (download_file_frame u p n w0) as Hfr;
        pose proof (download_file_clock u p n w0) as Hck end.
      split; [eapply only_wrote_trans; [|exact Hfr]; repeat split|].
      split; [simpl in Hck; exact Hck|].
      intros d Hd. unfold Fs.present in Hp. simpl in Hp. rewrite Hd in Hp.
      rewrite bool_decide_eq_true_2 in Hp by eauto. discriminate. }
  unfold after in Hc. clearbody mc. destruct (mc wa) as [[e|[]] wb]; simpl in Hc; cbv beta iota;
    destruct Hc as ((Hd1 & _ & Hf1) & Hc1 & Hk1); simpl in Hd1, Hf1, Hc1.
  { split; [intros q Hq _; by apply Hf1|].
    split; [intros d Hd; destruct (Hk1 d Hd) as [Hk Hck]; simpl; split; [done|lia]|].
    split; [right; exact Hd1|simpl; lia]. }
  match goal with |- context [?m wb] =>
    lazymatch m with (if _ then _ else _) => set (mm := m) end end.
  assert (Hm : only_wrote (mp3_path self) wb (after mm wb) /\
               (clock wb <= clock (after mm wb) <= clock wb + 3)%nat).
  { subst mm. destruct (Fs.present _ wb); cbn [negb].
    - unfold after. simpl. split; [apply only_wrote_refl|lia].
    - unfold after, mbind, M_bind, logging at 1. simpl. unfold download_mp3.
      match goal with |- context [download_mp3_loop ?l ?u ?p ?m ?a ?w0] =>
        pose proof (download_mp3_loop_frame l u p m a w0) as Hfr;
        pose proof (download_mp3_loop_clock l u p m a w0) as Hck end.
      split; [eapply only_wrote_trans; [|exact Hfr]; repeat split|].
      simpl in Hck. exact Hck. }
  unfold after in Hm. clearbody mm. destruct (mm wb) as [[e|[]] wc]; simpl in Hm; cbv beta iota;
    destruct Hm as ((Hd2 & _ & Hf2) & Hc2).
  { split; [intros q Hq1 Hq2; rewrite Hf2, Hf1 by done; reflexivity|].
    split; [intros d Hd; destruct (Hk1 d Hd) as [Hk Hck]; simpl;
            rewrite Hf2 by apply cover_ne_mp3; split; [done|lia]|].
    split; [right; simpl; congruence|simpl; lia]. }
  unfold logging at 1. simpl.
  match goal with |- context [set_mp3_metadata ?a ?b ?c ?d ?w0] =>
    pose proof (set_mp3_metadata_effect a b c d w0) as (Hf3 & Hd3 & Hc3) end.
  unfold after in Hf3, Hd3, Hc3.
  destruct (set_mp3_metadata _ _ _ _ _) as [[e|[]] wd]; simpl in *.
  - split; [intros q Hq1 Hq2; rewrite Hf3, Hf2, Hf1 by done; reflexivity|].
    split; [intros d Hd; destruct (Hk1 d Hd) as [Hk Hck]; simpl;
            rewrite Hf3, Hf2 by apply cover_ne_mp3; split; [done|lia]|].
    split; [right; simpl; congruence|simpl; lia].
  - split; [intros q Hq1 Hq2; rewrite Hf3, Hf2, Hf1 by done; reflexivity|].
    split; [intros d Hd; destruct (Hk1 d Hd) as [Hk Hck]; simpl;
            rewrite Hf3, Hf2 by apply cover_ne_mp3; split; [done|lia]|].
    split; [right; simpl; congruence|simpl; lia].
Qed.

End ProcessEffect.

Section ProcessMore.
Context `{Collaborators}.
Import FileManager AudiobookProcessor.

Lemma set_mp3_metadata_unreadable (mp3 name album cover : string) (w : World) (b : bytes)
    (msg : string) :
  files w !! mp3 = Some b -> ID3_load b = Unreadable msg ->
  set_mp3_metadata mp3 name album cover w
  = (inl (MutagenError msg), with_tagged (S (tagged w)) w).
Proof.
  intros Hb Hl. unfold set_mp3_metadata, called, load_tags, Fs.read, mbind, M_bind.
  simpl. rewrite Hb, Hl. reflexivity.
Qed.


(** X17. A run of [process] sends at most four requests, one for the
    cover and three for the audio file, and at most three when the cover
    file is already there, which it then leaves as it is. *)
Theorem process_bounded_requests (name album dest : string) (cl al : option string)
    (w : World) :
  let self := make name cl al album dest in
  let w' := after (process self) w in
  (clock w <= clock w' <= clock w + 4)%nat /\
  (forall d, files w !! cover_path self = Some d ->
     files w' !! cover_path self = Some d /\ (clock w' <= clock w + 3)%nat).
Proof.
  intros self w'. destruct (process_effect name album dest cl al w) as (_ & Hc & _ & Hk).
  split; [exact Hk|exact Hc].
Qed.

(** X18. When the cover and the audio file of an item are both there,
    [process] sends no request, whatever the two links are, and goes on to
    the tags: with a tag that loads (or no tag header) it returns and only
    the audio file changes, to the file with the new tag saved; with a tag
    that does not load it raises and nothing on disk changes. *)
Theorem process_files_present (name album dest : string) (cl al : option string) (w : World)
    (b d : bytes) :
  let self := make name cl al album dest in
  let w' := after (process self) w in
  files w !! folder_path self = None ->
  files w !! cover_path self = Some d ->
  files w !! mp3_path self = Some b ->
  clock w' = clock w /\
  (forall old, ID3_load b = Header old \/ ID3_load b = NoHeader /\ old = ∅ ->
     result (process self) w = inr tt /\
     files w' = <[mp3_path self := ID3_save (tags_for name album d old) b]> (files w)) /\
  (forall msg, ID3_load b = Unreadable msg ->
     result (process self) w = inl (MutagenError msg) /\ files w' = files w).
Proof.
  intros self w' Hf Hc Hm. subst w'.
  unfold result, after, process, mbind, M_bind. rewrite (mkdir_ok _ _ Hf).
  unfold Fs.exists_. rewrite (present_file _ _ d) by exact Hc. simpl.
  rewrite (present_file _ _ b) by exact Hm. simpl.
  destruct (ID3_load b) as [old| |msg] eqn:Hl.
  - rewrite (set_mp3_metadata_ok _ _ _ _ _ b d old) by (simpl; auto). simpl.
    split; [reflexivity|]. split; [|intros msg [=]].
    intros old' [[= <-]|[[=] _]]. auto.
  - rewrite (set_mp3_metadata_ok _ _ _ _ _ b d ∅) by (simpl; auto). simpl.
    split; [reflexivity|]. split; [|intros msg [=]].
    intros old' [[=]|[_ ->]]. auto.
  - rewrite (set_mp3_metadata_unreadable _ _ _ _ _ b msg) by (simpl; auto). simpl.
    split; [reflexivity|]. split; [|intros msg' [= <-]; auto].
    intros old' [[=]|[[=] _]].
Qed.

(** X19. When the path of the folder is a regular file, [process] raises
    the error of [mkdir] and does nothing else: no request, no log entry,
    no change on disk. *)
Theorem process_folder_is_file (name album dest : string) (cl al : option string)
    (w : World) (b : bytes) :
  let self := make name cl al album dest in
  files w !! folder_path self = Some b ->
  process self w = (inl (OSError ("File exists: " +:+ folder_path self)), w).
Proof.
  intros self Hf. unfold process, mbind, M_bind, Fs.mkdir. rewrite Hf. reflexivity.
Qed.

End ProcessMore.


(** An item whose cover is in place. *)
Lemma process_bounded_requests_witness :
  let w := mkWorld {[ "/dst/Story/cover.jpg" := Fixtures.jpeg ]} {[ "/dst" ]} [] 0 0 0 in
  let w' := after (AudiobookProcessor.process (H := Fixtures.failing) Fixtures.story) w in
  files w' !! "/dst/Story/cover.jpg" = Some Fixtures.jpeg /\ (clock w' <= 0 + 3)%nat.
Proof.
  intros w w'.
  apply (proj2 (process_bounded_requests (H := Fixtures.failing) "Story" "Kubus Storytel"
                  "/dst" (Some "http://x/c.jpg") (Some "http://x/a.mp3") w)).
  reflexivity.
Defined.

(** An item whose two files are in place, and whose links are absent. *)
Lemma process_files_present_witness :
  let w := mkWorld {[ "/dst/Story/cover.jpg" := Fixtures.jpeg;
                      "/dst/Story/Story.mp3" := Fixtures.mp3 ]} {[ "/dst" ]} [] 0 0 0 in
  clock (after (AudiobookProcessor.process (H := Fixtures.offline)
                  (AudiobookProcessor.make "Story" None None "Kubus Storytel" "/dst")) w)
  = 0%nat.
Proof.
  intros w.
  apply (process_files_present (H := Fixtures.offline) "Story" "Kubus Storytel" "/dst"
           None None w Fixtures.mp3 Fixtures.jpeg); reflexivity.
Defined.

(** A file where the folder of the item should be. *)
Lemma process_folder_is_file_witness :
  let w := mkWorld {[ "/dst/Story" := Fixtures.jpeg ]} {[ "/dst" ]} [] 0 0 0 in
  AudiobookProcessor.process (H := Fixtures.site) Fixtures.story w
  = (inl (OSError ("File exists: " +:+ "/dst/Story")), w).
Proof.
  intros w.
  apply (process_folder_is_file (H := Fixtures.site) "Story" "Kubus Storytel" "/dst"
           (Some "http://x/c.jpg") (Some "http://x/a.mp3") w Fixtures.jpeg).
  reflexivity.
Defined.

(** ** The driver and the script *)
Section MainMore.
Context `{Collaborators}.

(** X20. When the request for the catalog is refused or answered with an
    error status, [main] returns normally after this one request: nothing
    is processed and nothing on disk changes. *)
Theorem main_without_catalog (destination : string) (w : World) (msg : string) :
  transport_error (http_get (clock w) "https://kubus.pl/audiobooki/" default_headers)
  = Some msg ->
  result (main destination) w = inr tt /\
  files (after (main destination) w) = files w /\
  dirs (after (main destination) w) = dirs w /\
  tagged (after (main destination) w) = tagged w /\
  clock (after (main destination) w) = S (clock w).
Proof.
  intros Hm. unfold result, after, main, AudiobookScraper.__init__, logging, mbind, M_bind.
  simpl. unfold AudiobookScraper.run, try_except, mbind, M_bind.
  match goal with |- context [AudiobookScraper.fetch_page ?s ?w0] =>
    destruct (fetch_page_fails s w0 msg Hm) as (Hres & _ & Hck);
    pose proof (fetch_page_effect s w0) as [(Hf & Hd & Ht) _];
    rewrite (run_pair (AudiobookScraper.fetch_page s) w0), Hres end.
  simpl in *. auto.
Qed.

(** X21. The script ends with status 0 exactly when it was given one
    argument, that argument names a directory, and [main] returned. With
    another number of arguments or a path that is no directory it prints
    one line and exits with status 1, and the world is as it was. *)
Theorem script_status (argv : list string) (w : World) :
  (exit_code (script argv w).1.1 = 0 <->
   exists arg0 destination, argv = [arg0; destination] /\
     is_dir destination w = true /\ result (main destination) w = inr tt) /\
  ((forall arg0 destination, argv = [arg0; destination] -> is_dir destination w = false) ->
   exists line, script argv w = (Exit 1, [line], w)).
Proof.
  split.
  - split.
    + destruct argv as [|a [|d [|x l]]]; simpl; try discriminate.
      destruct (is_dir d w) eqn:Hd; simpl; [|discriminate].
      unfold result. destruct (main d w) as [[e|[]] w'] eqn:Hmain; simpl; [discriminate|].
      intros _. exists a, d. by rewrite Hmain.
    + intros (a & d & -> & Hd & Hm). simpl. rewrite Hd. simpl.
      unfold result in Hm. destruct (main d w) as [[e|[]] w']; simpl in *; [discriminate|].
      reflexivity.
  - intros Hbad. destruct argv as [|a [|d [|x l]]]; simpl; eauto.
    rewrite (Hbad a d eq_refl). simpl. eauto.
Qed.

End MainMore.

(** The driver with the network down. *)
Lemma main_without_catalog_witness :
  result (main (H := Fixtures.offline) "/dst") Fixtures.fresh = inr tt /\
  files (after (main (H := Fixtures.offline) "/dst") Fixtures.fresh) = ∅ /\
  dirs (after (main (H := Fixtures.offline) "/dst") Fixtures.fresh) = {[ "/dst" ]} /\
  tagged (after (main (H := Fixtures.offline) "/dst") Fixtures.fresh) = 0%nat /\
  clock (after (main (H := Fixtures.offline) "/dst") Fixtures.fresh) = 1%nat.
Proof.
  apply (main_without_catalog (H := Fixtures.offline) "/dst" Fixtures.fresh
           "Connection refused").
  reflexivity.
Defined.

(** The script without its argument. *)
Lemma script_status_witness :
  exists line,
    script (H := Fixtures.site) ["audiobook_scraper.py"] Fixtures.fresh
    = (Exit 1, [line], Fixtures.fresh).
Proof.
  apply (proj2 (script_status (H := Fixtures.site) ["audiobook_scraper.py"] Fixtures.fresh)).
  intros arg0 destination Heq. discriminate Heq.
Defined.

(** The body of 8193 bytes, fetched in chunks of 1024. *)
Lemma download_file_streams_witness :
  (peak (after (FileManager.download_file (H := Fixtures.big_site) (Some "http://x/a.mp3")
                  "/dst/a.mp3" 1024) Fixtures.empty_world)
   <= Nat.max 0 (Z.to_nat 1024))%nat.
Proof.
  apply (download_file_streams (H := Fixtures.big_site) (Some "http://x/a.mp3") "/dst/a.mp3"
           1024 Fixtures.empty_world).
  lia.
Defined.

(** ** The warning of the cover extraction *)
Section CoverWarning.
Import Bs4 AudiobookScraper.

(** X23. [extract_image_url] logs its warning exactly when there is no
    cover element or the element has no [style] attribute; a [style] in
    which the pattern finds no URL gives [None] without any log entry. *)
Theorem extract_image_url_warning (self : t) (cover_div : option Node) (w : World) :
  log (after (extract_image_url self cover_div) w)
  = (log w ++
     match cover_div ≫= (fun div => get div "style") with
     | Some _ => []
     | None => [(WARNING, "Cover attribute not found or URL not in style attribute.")]
     end)%list.
Proof.
  unfold after. destruct cover_div as [div|]; simpl; [|reflexivity].
  destruct (get div "style"); simpl; [by rewrite app_nil_r|reflexivity].
Qed.

End CoverWarning.

(** ** Requests of the whole loop *)
Section LoopRequests.
Context `{Collaborators}.

(** X24. The loop of [main] sends at most four requests for each record,
    however the processors end. *)
Theorem process_all_bounded_requests (album destination : string)
    (audiobooks : list AudiobookScraper.Audiobook) (w : World) :
  (clock (after (process_all album destination audiobooks) w)
   <= clock w + 4 * length audiobooks)%nat.
Proof.
  revert w. induction audiobooks as [|a l IH]; intros w; [unfold after; simpl; lia|].
  unfold after. cbn [process_all]. unfold mbind, M_bind.
  pose proof (process_effect (AudiobookScraper.title a) album destination
                (AudiobookScraper.cover_link a) (AudiobookScraper.audio_link a)
                (with_log (log w ++ [(INFO, "AudiobookProcessor initialized for: "
                                              +:+ AudiobookScraper.title a)]) w))
    as (_ & _ & _ & Hc).
  rewrite process_item_eq. unfold after in Hc.
  destruct (AudiobookProcessor.process _ _) as [[e|[]] w1]; simpl in *; [lia|].
  specialize (IH w1). unfold after in IH. lia.
Qed.

End LoopRequests.
